(** * granola-collector: a shallow embedding of the incremental meeting collector

    The development follows [templates/granola-collector.py].  Python values
    are modelled as the script uses them:

    - a [str] is a [string] whose characters are code points below 256;
    - a meeting is a [dict] read with [.get], here a [gmap string value];
    - a [datetime] is the record of its calendar fields together with an
      optional UTC offset ([None] for a naive value);
    - an exception is a constructor of [exn]; a call that can raise returns a
      [result], and code that touches the clock or the disk runs in the
      state-and-exception monad [M] over [World].

    The functions of [granola_reader] are imported from outside the
    repository; they form the interface [GranolaReader]. *)

From Stdlib Require Import ZArith Ascii String List Bool Lia.
From stdpp Require Import base option gmap strings list.

Local Open Scope string_scope.
Local Open Scope Z_scope.

(** ** Exceptions and results *)

Inductive exn : Type :=
  | ValueError
  | OSError
  | OverflowError
  | TypeError.

Inductive result (A : Type) : Type :=
  | Val (a : A)
  | Exc (e : exn).

Arguments Val {A} a.
Arguments Exc {A} e.

Definition rbind {A B : Type} (r : result A) (k : A -> result B) : result B :=
  match r with
  | Val a => k a
  | Exc e => Exc e
  end.

(** ** Python strings *)

Module PyStr.

Definition code (c : ascii) : Z := Z.of_N (N_of_ascii c).

(** [str.isspace] on one character, for code points below 256; the regular
    expression class [\s] agrees with it on [str] patterns. *)
Definition isspace (c : ascii) : bool :=
  let n := code c in
  ((9 <=? n) && (n <=? 13)) || ((28 <=? n) && (n <=? 32))
  || (n =? 133) || (n =? 160).

Definition isdigit (c : ascii) : bool :=
  let n := code c in (48 <=? n) && (n <=? 57).

(** [str.lower] on one character (ASCII and Latin-1 capitals). *)
Definition lower_char (c : ascii) : ascii :=
  let n := code c in
  if ((65 <=? n) && (n <=? 90))
     || ((192 <=? n) && (n <=? 222) && negb (n =? 215))
  then ascii_of_N (Z.to_N (n + 32)) else c.

Fixpoint lower (s : string) : string :=
  match s with
  | EmptyString => EmptyString
  | String c r => String (lower_char c) (lower r)
  end.

Fixpoint lstrip_by (p : ascii -> bool) (s : string) : string :=
  match s with
  | EmptyString => EmptyString
  | String c r => if p c then lstrip_by p r else s
  end.

Fixpoint rev_onto (s acc : string) : string :=
  match s with
  | EmptyString => acc
  | String c r => rev_onto r (String c acc)
  end.

Definition rev (s : string) : string := rev_onto s EmptyString.

Definition rstrip_by (p : ascii -> bool) (s : string) : string :=
  rev (lstrip_by p (rev s)).

Definition strip_by (p : ascii -> bool) (s : string) : string :=
  rstrip_by p (lstrip_by p s).

(** [s.strip()] *)
Definition strip (s : string) : string := strip_by isspace s.

(** [s.strip(c)] for a one-character argument *)
Definition strip_char (c : ascii) (s : string) : string :=
  strip_by (Ascii.eqb c) s.

(** [c in s] for a one-character [c] *)
Fixpoint contains (c : ascii) (s : string) : bool :=
  match s with
  | EmptyString => false
  | String d r => Ascii.eqb c d || contains c r
  end.

(** [s.replace(c, by_)] for a one-character [c] *)
Fixpoint replace_char (c : ascii) (by_ : string) (s : string) : string :=
  match s with
  | EmptyString => EmptyString
  | String d r =>
      if Ascii.eqb c d then by_ ++ replace_char c by_ r
      else String d (replace_char c by_ r)
  end.

(** [s.split(c)[0]]: the text before the first [c], all of [s] without one *)
Fixpoint before (c : ascii) (s : string) : string :=
  match s with
  | EmptyString => EmptyString
  | String d r => if Ascii.eqb c d then EmptyString else String d (before c r)
  end.

(** [s.rsplit(c, 1)]: the two sides of the last [c]; [None] stands for the
    one-element list Python returns when [c] does not occur. *)
Fixpoint rsplit1 (c : ascii) (s : string) : option (string * string) :=
  match s with
  | EmptyString => None
  | String d r =>
      match rsplit1 c r with
      | Some (base, ext) => Some (String d base, ext)
      | None => if Ascii.eqb c d then Some (EmptyString, r) else None
      end
  end.

(** [s[:n]] *)
Fixpoint take (n : nat) (s : string) : string :=
  match n, s with
  | O, _ => EmptyString
  | S _, EmptyString => EmptyString
  | S k, String c r => String c (take k r)
  end.

(** [sep.join(parts)] *)
Fixpoint join (sep : string) (parts : list string) : string :=
  match parts with
  | [] => EmptyString
  | [p] => p
  | p :: rest => p ++ sep ++ join sep rest
  end.

(** The first [re.sub] of [slugify] deletes every character of its class:
    less-than, greater-than, colon, double quote, slash, backslash, bar,
    question mark and star, listed here by code point. *)
Definition illegal_in_name (c : ascii) : bool :=
  let n := code c in
  (n =? 60) || (n =? 62) || (n =? 58) || (n =? 34) || (n =? 47)
  || (n =? 92) || (n =? 124) || (n =? 63) || (n =? 42).

Fixpoint remove_if (p : ascii -> bool) (s : string) : string :=
  match s with
  | EmptyString => EmptyString
  | String c r => if p c then remove_if p r else String c (remove_if p r)
  end.

(** [re.sub(p+, by_, s)] for a one-character class [p]: every maximal run of
    characters in [p] becomes one [by_]; [in_run] tells that the previous
    character was in [p]. *)
Fixpoint collapse_from (p : ascii -> bool) (by_ : ascii) (in_run : bool)
    (s : string) : string :=
  match s with
  | EmptyString => EmptyString
  | String c r =>
      if p c then
        if in_run then collapse_from p by_ true r
        else String by_ (collapse_from p by_ true r)
      else String c (collapse_from p by_ false r)
  end.

Definition collapse_runs (p : ascii -> bool) (by_ : ascii) (s : string) : string :=
  collapse_from p by_ false s.

(** [str(n)] for a natural number, and [%02d]. *)
Definition digit_char (d : Z) : ascii := ascii_of_N (Z.to_N (48 + d)).

Fixpoint decimal_onto (fuel : nat) (n : Z) (acc : string) : string :=
  let acc' := String (digit_char (n mod 10)) acc in
  match fuel with
  | O => acc'
  | S f => if n <? 10 then acc' else decimal_onto f (n / 10) acc'
  end.

Definition decimal (n : Z) : string := decimal_onto (Z.to_nat (Z.log2 n)) n "".

Definition pad2 (n : Z) : string :=
  String (digit_char (n / 10)) (String (digit_char (n mod 10)) "").

(** [int(s)] on a run of decimal digits; anything else is a [ValueError]. *)
Fixpoint digits_onto (s : string) (acc : Z) : option Z :=
  match s with
  | EmptyString => Some acc
  | String c r =>
      if isdigit c then digits_onto r (10 * acc + (code c - 48)) else None
  end.

Definition parse_digits (s : string) : option Z :=
  match s with
  | EmptyString => None
  | _ => digits_onto s 0
  end.

(** [s[i:j]] and [s[i:]] *)
Definition slice (i j : nat) (s : string) : string := substring i (j - i)%nat s.
Definition drop (i : nat) (s : string) : string :=
  substring i (String.length s - i)%nat s.

Fixpoint find_char (c : ascii) (s : string) : option nat :=
  match s with
  | EmptyString => None
  | String d r =>
      if Ascii.eqb c d then Some O else S <$> find_char c r
  end.

End PyStr.

(** ** The [datetime] library *)

(** A [datetime.datetime]: calendar fields and [tzinfo], the UTC offset in
    microseconds of an aware value, [None] for a naive one. *)
Record datetime : Type := mkdt {
  year : Z;
  month : Z;
  day : Z;
  hour : Z;
  minute : Z;
  second : Z;
  microsecond : Z;
  tzinfo : option Z
}.

Module Calendar.

Definition is_leap (y : Z) : bool :=
  (y mod 4 =? 0) && (negb (y mod 100 =? 0) || (y mod 400 =? 0)).

Definition days_in_month (y m : Z) : Z :=
  if m =? 2 then (if is_leap y then 29 else 28)
  else if (m =? 4) || (m =? 6) || (m =? 9) || (m =? 11) then 30
  else 31.

(** Days from 1970-01-01 to the given proleptic Gregorian date. *)
Definition days_from_civil (y m d : Z) : Z :=
  let y' := if m <=? 2 then y - 1 else y in
  let era := y' / 400 in
  let yoe := y' - era * 400 in
  let doy := (153 * (if m <=? 2 then m + 9 else m - 3) + 2) / 5 + d - 1 in
  let doe := yoe * 365 + yoe / 4 - yoe / 100 + doy in
  era * 146097 + doe - 719468.

(** The date that lies [z] days after 1970-01-01. *)
Definition civil_from_days (z : Z) : Z * Z * Z :=
  let z' := z + 719468 in
  let era := z' / 146097 in
  let doe := z' - era * 146097 in
  let yoe := (doe - doe / 1460 + doe / 36524 - doe / 146096) / 365 in
  let doy := doe - (365 * yoe + yoe / 4 - yoe / 100) in
  let mp := (5 * doy + 2) / 153 in
  let d := doy - (153 * mp + 2) / 5 + 1 in
  let m := if mp <? 10 then mp + 3 else mp - 9 in
  (if m <=? 2 then yoe + era * 400 + 1 else yoe + era * 400, m, d).

Definition us_per_second : Z := 1000000.
Definition us_per_day : Z := 86400 * us_per_second.

(** Microseconds from 1970-01-01T00:00:00 to the wall-clock reading of [d]. *)
Definition wall_us (d : datetime) : Z :=
  (days_from_civil (year d) (month d) (day d) * 86400
   + hour d * 3600 + minute d * 60 + second d) * us_per_second
  + microsecond d.

Definition of_wall_us (us : Z) (tz : option Z) : datetime :=
  let days := us / us_per_day in
  let rest := us mod us_per_day in
  let secs := rest / us_per_second in
  let '(y, m, d) := civil_from_days days in
  mkdt y m d (secs / 3600) (secs mod 3600 / 60) (secs mod 60)
       (rest mod us_per_second) tz.

End Calendar.

Module Datetime.

Import Calendar.

(** The range checks of the [datetime] constructor. *)
Definition valid_fields (d : datetime) : bool :=
  (1 <=? year d) && (year d <=? 9999)
  && (1 <=? month d) && (month d <=? 12)
  && (1 <=? day d) && (day d <=? days_in_month (year d) (month d))
  && (0 <=? hour d) && (hour d <=? 23)
  && (0 <=? minute d) && (minute d <=? 59)
  && (0 <=? second d) && (second d <=? 59)
  && (0 <=? microsecond d) && (microsecond d <=? 999999).

(** Field-by-field order, the way two values with the same offset compare. *)
Definition fields_compare (a b : datetime) : comparison :=
  match year a ?= year b with
  | Eq =>
    match month a ?= month b with
    | Eq =>
      match day a ?= day b with
      | Eq =>
        match hour a ?= hour b with
        | Eq =>
          match minute a ?= minute b with
          | Eq =>
            match second a ?= second b with
            | Eq => microsecond a ?= microsecond b
            | c => c
            end
          | c => c
          end
        | c => c
        end
      | c => c
      end
    | c => c
    end
  | c => c
  end.

Definition is_Lt (c : comparison) : bool :=
  match c with Lt => true | _ => false end.

(** [a < b].  Two naive values, or two aware values with one offset, compare
    by fields; two aware values with different offsets compare as instants;
    a naive value against an aware one raises [TypeError]. *)
Definition lt (a b : datetime) : result bool :=
  match tzinfo a, tzinfo b with
  | None, None => Val (is_Lt (fields_compare a b))
  | Some oa, Some ob =>
      if oa =? ob then Val (is_Lt (fields_compare a b))
      else Val (wall_us a - oa <? wall_us b - ob)
  | _, _ => Exc TypeError
  end.

(** [datetime.fromtimestamp] of a POSIX time given in microseconds, in a zone
    that lies [local_offset] seconds east of UTC.  A time whose seconds do
    not fit a 64-bit [time_t] raises [OverflowError]; one that fits but falls
    outside the years 1..9999 raises [ValueError] (on some platforms
    [OSError], which every caller here handles alike). *)
Definition fromtimestamp_us (local_offset : Z) (us : Z) : result datetime :=
  let secs := us / us_per_second in
  if (secs <? - 2 ^ 63) || (2 ^ 63 <=? secs) then Exc OverflowError
  else
    let d := of_wall_us (us + local_offset * us_per_second) None in
    if (1 <=? year d) && (year d <=? 9999) then Val d else Exc ValueError.

(** [d - timedelta(days=n)].  Python raises [OverflowError] when the result
    leaves the years 1..9999; the only caller passes the system clock and 30
    days, so that check is not modelled. *)
Definition sub_days (d : datetime) (n : Z) : datetime :=
  of_wall_us (wall_us d - n * us_per_day) (tzinfo d).

(** *** [strftime] with the four formats the script uses *)

(** [%Y-%m-%d]; [%Y] prints the year without padding, as the C library does. *)
Definition strftime_date (d : datetime) : string :=
  (PyStr.decimal (year d) ++ "-" ++ PyStr.pad2 (month d) ++ "-"
   ++ PyStr.pad2 (day d))%string.

(** [%H:%M] and [%H:%M:%S] *)
Definition strftime_hm (d : datetime) : string :=
  (PyStr.pad2 (hour d) ++ ":" ++ PyStr.pad2 (minute d))%string.

Definition strftime_hms (d : datetime) : string :=
  (strftime_hm d ++ ":" ++ PyStr.pad2 (second d))%string.

(** [%Y-%m-%dT%H:%M:%S] *)
Definition strftime_T_seconds (d : datetime) : string :=
  (strftime_date d ++ "T" ++ strftime_hms d)%string.

(** [%Y-%m-%d %H:%M:%S] *)
Definition strftime_seconds (d : datetime) : string :=
  (strftime_date d ++ " " ++ strftime_hms d)%string.

(** [%Y-%m-%d %H:%M] *)
Definition strftime_minutes (d : datetime) : string :=
  (strftime_date d ++ " " ++ strftime_hm d)%string.

(** [d.replace(microsecond=0)] *)
Definition whole_seconds (d : datetime) : datetime :=
  mkdt (year d) (month d) (day d) (hour d) (minute d) (second d) 0 (tzinfo d).

End Datetime.

(** *** [datetime.fromisoformat]

    The grammar is the one [datetime.isoformat] emits,
    [YYYY-MM-DD[*HH[:MM[:SS[.fff[fff]]]][+HH:MM[:SS[.ffffff]]]]], which every
    Python 3 release with [fromisoformat] accepts; later releases accept
    further spellings.  [None] stands for [ValueError]. *)

Module Iso.

Import PyStr.

Definition fixed_digits (n : nat) (s : string) : option Z :=
  if Nat.eqb (String.length s) n then parse_digits s else None.

Definition parse_isoformat_date (dstr : string) : option (Z * Z * Z) :=
  match fixed_digits 4 (slice 0 4 dstr), String.get 4 dstr,
        fixed_digits 2 (slice 5 7 dstr), String.get 7 dstr,
        fixed_digits 2 (slice 8 10 dstr) with
  | Some y, Some c1, Some m, Some c2, Some d =>
      if Ascii.eqb c1 "-" && Ascii.eqb c2 "-" && Nat.eqb (String.length dstr) 10
      then Some (y, m, d) else None
  | _, _, _, _, _ => None
  end.

(** What may follow the seconds: nothing, or a dot and 3 or 6 digits. *)
Definition parse_fraction (s : string) : option Z :=
  match s with
  | EmptyString => Some 0
  | String c r =>
      if Ascii.eqb c "." then
        match String.length r with
        | 3%nat => (fun n => n * 1000) <$> parse_digits r
        | 6%nat => parse_digits r
        | _ => None
        end
      else None
  end.

(** [HH[:MM[:SS[.fff[fff]]]]] *)
Definition parse_hh_mm_ss_ff (tstr : string) : option (Z * Z * Z * Z) :=
  match fixed_digits 2 (take 2 tstr) with
  | None => None
  | Some hh =>
    match drop 2 tstr with
    | EmptyString => Some (hh, 0, 0, 0)
    | String c1 r1 =>
      if negb (Ascii.eqb c1 ":") then None else
      match fixed_digits 2 (take 2 r1) with
      | None => None
      | Some mm =>
        match drop 2 r1 with
        | EmptyString => Some (hh, mm, 0, 0)
        | String c2 r2 =>
          if negb (Ascii.eqb c2 ":") then None else
          match fixed_digits 2 (take 2 r2), parse_fraction (drop 2 r2) with
          | Some ss, Some ff => Some (hh, mm, ss, ff)
          | _, _ => None
          end
        end
      end
    end
  end.

Definition day_us : Z := 86400 * 1000000.

(** The time of day and the offset; the offset starts at the first minus
    sign, or else at the first plus sign. *)
Definition parse_isoformat_time (tstr : string)
    : option (Z * Z * Z * Z * option Z) :=
  if (String.length tstr <? 2)%nat then None else
  let tz_pos :=
    match find_char "-" tstr with
    | Some i => Some (i, -1)
    | None =>
        match find_char "+" tstr with
        | Some i => Some (i, 1)
        | None => None
        end
    end in
  match tz_pos with
  | None =>
      match parse_hh_mm_ss_ff tstr with
      | Some (hh, mm, ss, ff) => Some (hh, mm, ss, ff, None)
      | None => None
      end
  | Some (i, tzsign) =>
      let tzstr := drop (S i) tstr in
      let n := String.length tzstr in
      if negb (Nat.eqb n 5 || Nat.eqb n 8 || Nat.eqb n 15) then None else
      match parse_hh_mm_ss_ff (take i tstr), parse_hh_mm_ss_ff tzstr with
      | Some (hh, mm, ss, ff), Some (th, tm, ts, tf) =>
          let td := tzsign * ((th * 3600 + tm * 60 + ts) * 1000000 + tf) in
          if (- day_us <? td) && (td <? day_us)
          then Some (hh, mm, ss, ff, Some td) else None
      | _, _ => None
      end
  end.

Definition fromisoformat (date_string : string) : result datetime :=
  let dstr := slice 0 10 date_string in
  let tstr := drop 11 date_string in
  match parse_isoformat_date dstr with
  | None => Exc ValueError
  | Some (y, m, d) =>
      let time_components :=
        if (String.length date_string <=? 10)%nat then Some (0, 0, 0, 0, None)
        else parse_isoformat_time tstr in
      match time_components with
      | None => Exc ValueError
      | Some (hh, mm, ss, ff, tz) =>
          let dt := mkdt y m d hh mm ss ff tz in
          if Datetime.valid_fields dt then Val dt else Exc ValueError
      end
  end.

End Iso.

(** ** Meeting records and the reader interface *)

(** The values a field of a cache record can hold: [null], a boolean, an
    integer, a string, or an array or object, of which only emptiness is
    observed.  Numbers with a fraction are left out: their conversion runs
    through binary floating point.  For an integer above [1e12] the quotient
    [val / 1000] is taken exactly. *)
Inductive value : Type :=
  | VNone
  | VBool (b : bool)
  | VInt (n : Z)
  | VStr (s : string)
  | VOther (nonempty : bool).

Abbreviation meeting := (gmap string value).

(** [bool(val)] *)
Definition truthy (val : value) : bool :=
  match val with
  | VNone => false
  | VBool b => b
  | VInt n => negb (n =? 0)
  | VStr s => negb (String.eqb s "")
  | VOther nonempty => nonempty
  end.

(** The names imported from [granola_reader], typed by the use the collector
    makes of their results: a date that may be [None], a list of names to
    join, note and summary texts that are stripped without a test, a
    transcript that is tested before it is stripped. *)
Class GranolaReader (CacheState : Type) : Type := {
  extract_meetings : CacheState -> list meeting;
  get_meeting_date : meeting -> option datetime;
  get_meeting_id : meeting -> string;
  get_meeting_title : meeting -> string;
  get_notes : meeting -> CacheState -> string;
  get_participants : meeting -> list string;
  get_summary : meeting -> string;
  get_transcript : meeting -> CacheState -> option string;
  has_content : meeting -> CacheState -> bool
}.

(** What [load_cache()] does: return the state, raise [FileNotFoundError], or
    raise something else; [e] is the text of the exception. *)
Inductive cache_load (CacheState : Type) : Type :=
  | CacheLoaded (state : CacheState)
  | CacheNotFound (e : string)
  | CacheFailed (e : string).

Arguments CacheLoaded {CacheState} state.
Arguments CacheNotFound {CacheState} e.
Arguments CacheFailed {CacheState} e.

Definition TRANSCRIPT_CAP : nat := 5000.

(** ** The world the collector runs in *)

(** The messages passed to [log]; the text of a line is not needed. *)
Inductive log_msg : Type :=
  | LogLockBusy
  | LogCacheWarning (e : string)
  | LogCacheError (e : string)
  | LogInvalidState (raw : string)
  | LogProcessing (cutoff : datetime)
  | LogWrote (written : nat).

(** File-system effects, in the order they happen.  Of the writes only those
    into the inbox can fail in this model ([unwritable]); appending to the
    log and overwriting the state file always succeed. *)
Inductive event : Type :=
  | EvLog (ts : string) (msg : log_msg)
  | EvDoc (fname content : string)
  | EvCommit (text : string).

Record World : Type := mkWorld {
  ticks : nat;                  (* readings of the clock taken so far *)
  state_file : option string;   (* text of STATE_FILE, None when missing *)
  inbox : gmap string string;   (* INBOX_DIR: file name to content *)
  trace : list event;           (* every effect so far, oldest first *)
  unwritable : gset string;     (* inbox names whose write raises OSError *)
  lock_busy : bool;             (* another process holds LOCK_FILE *)
  lock_held : bool              (* this process holds LOCK_FILE *)
}.

Inductive outcome (A : Type) : Type :=
  | Ok (a : A) (w : World)
  | Raise (e : exn) (w : World).

Arguments Ok {A} a w.
Arguments Raise {A} e w.

Definition M (A : Type) : Type := World -> outcome A.

Definition ret {A : Type} (a : A) : M A := fun w => Ok a w.

Definition bind {A B : Type} (m : M A) (k : A -> M B) : M B :=
  fun w =>
    match m w with
    | Ok a w' => k a w'
    | Raise e w' => Raise e w'
    end.

Definition lift {A : Type} (r : result A) : M A :=
  fun w =>
    match r with
    | Val a => Ok a w
    | Exc e => Raise e w
    end.

Notation "'let!' x ':=' m 'in' k" := (bind m (fun x => k))
  (at level 10, x pattern, m at level 100, k at level 200).

Definition emit (ev : event) (w : World) : World :=
  mkWorld (ticks w) (state_file w) (inbox w) (trace w ++ [ev])
          (unwritable w) (lock_busy w) (lock_held w).

Definition tick (w : World) : World :=
  mkWorld (S (ticks w)) (state_file w) (inbox w) (trace w)
          (unwritable w) (lock_busy w) (lock_held w).

Definition set_lock_held (b : bool) (w : World) : World :=
  mkWorld (ticks w) (state_file w) (inbox w) (trace w)
          (unwritable w) (lock_busy w) b.

(** The texts committed to the state file by a run of events. *)
Definition commits (evs : list event) : list string :=
  omap (fun ev => match ev with EvCommit text => Some text | _ => None end) evs.

(** The names of the documents written by a run of events, in order. *)
Definition doc_names (evs : list event) : list string :=
  omap (fun ev => match ev with EvDoc fname _ => Some fname | _ => None end) evs.

Definition logged (evs : list event) : list log_msg :=
  omap (fun ev => match ev with EvLog _ msg => Some msg | _ => None end) evs.

(** ** The collector *)

Section Collector.

Context {CacheState : Type} {reader : GranolaReader CacheState}.

(** The zone of the machine, in seconds east of UTC. *)
Variable local_offset : Z.

(** [clock n] is what the [n]-th call of [datetime.now()] returns. *)
Variable clock : nat -> datetime.

(** The outcome of [load_cache()] in this run. *)
Variable load_cache : cache_load CacheState.

(** [datetime.now()] *)
Definition now : M datetime := fun w => Ok (clock (ticks w)) (tick w).

Definition log (msg : log_msg) : M unit :=
  let! t := now in
  fun w => Ok tt (emit (EvLog (Datetime.strftime_seconds t) msg) w).

(** [filepath.write_text(content)] for a file of the inbox *)
Definition write_text (fname content : string) : M unit :=
  fun w =>
    if decide (fname ∈ unwritable w) then Raise OSError w
    else
      Ok tt (emit (EvDoc fname content)
               (mkWorld (ticks w) (state_file w) (<[fname := content]> (inbox w))
                        (trace w) (unwritable w) (lock_busy w) (lock_held w))).

(** [STATE_FILE.write_text(text)] *)
Definition write_state (text : string) : M unit :=
  fun w =>
    Ok tt (emit (EvCommit text)
             (mkWorld (ticks w) (Some text) (inbox w) (trace w)
                      (unwritable w) (lock_busy w) (lock_held w))).

Definition slugify (title : string) : string :=
  let slug := PyStr.remove_if PyStr.illegal_in_name title in
  let slug :=
    PyStr.lower (PyStr.collapse_runs PyStr.isspace "-" (PyStr.strip slug)) in
  let slug :=
    PyStr.strip_char "-" (PyStr.collapse_runs (Ascii.eqb "-") "-" slug) in
  if String.eqb slug "" then "untitled" else PyStr.take 80 slug.

Definition get_cutoff : M datetime :=
  fun w =>
    let first_run := (let! t := now in ret (Datetime.sub_days t 30)) in
    match state_file w with
    | Some content =>
        let raw := PyStr.strip content in
        match Iso.fromisoformat raw with
        | Val d => Ok d w
        | Exc ValueError => (let! _ := log (LogInvalidState raw) in first_run) w
        | Exc e => Raise e w
        end
    | None => first_run w
    end.

(** The body of the [try] in [get_updated_at] for one truthy value:
    [Val (Some d)] is [return d], [Val None] leaves the [try] without a
    return, [Exc e] is the exception raised inside it. *)
Definition convert (val : value) : result (option datetime) :=
  let of_number (n : Z) :=
    let us := if 10 ^ 12 <? n then n * 1000 else n * 1000000 in
    rbind (Datetime.fromtimestamp_us local_offset us) (fun d => Val (Some d)) in
  match val with
  | VInt n => of_number n
  | VBool b => of_number (if b then 1 else 0)
  | VStr s =>
      let clean := PyStr.replace_char "Z" "+00:00" s in
      let clean :=
        if PyStr.contains "." clean
        then PyStr.before "." (PyStr.before "+" clean) else clean in
      rbind (Iso.fromisoformat clean) (fun d => Val (Some d))
  | VNone | VOther _ => Val None
  end.

Fixpoint get_updated_at_from (fields : list string) (m : meeting)
    : result (option datetime) :=
  match fields with
  | [] => Val None
  | field :: rest =>
      let val := default VNone (m !! field) in
      if negb (truthy val) then get_updated_at_from rest m
      else
        match convert val with
        | Val (Some d) => Val (Some d)
        | Val None => get_updated_at_from rest m
        | Exc ValueError | Exc OSError => get_updated_at_from rest m
        | Exc e => Exc e
        end
  end.

Definition timestamp_fields : list string :=
  ["updated_at"; "created_at"; "createdAt"].

Definition get_updated_at (m : meeting) : result (option datetime) :=
  get_updated_at_from timestamp_fields m.

(** The last element of [lines] in [format_inbox_file]. *)
Definition transcript_section (transcript : option string) : string :=
  match transcript with
  | Some t =>
      if negb (String.eqb t "") && negb (String.eqb (PyStr.strip t) "") then
        if (TRANSCRIPT_CAP <? String.length t)%nat
        then PyStr.take TRANSCRIPT_CAP t
             ++ String "010" (String "010" "[... transcript truncated]")
        else t
      else "No transcript available"
  | None => "No transcript available"
  end.

(** The list literal bound to [lines] in [format_inbox_file]. *)
Definition inbox_lines (m : meeting) (state : CacheState) : list string :=
  let title := get_meeting_title m in
  let meeting_id := get_meeting_id m in
  let date := get_meeting_date m in
  let participants := get_participants m in
  let notes := get_notes m state in
  let summary := get_summary m in
  let date_str :=
    match date with
    | Some d => Datetime.strftime_minutes d
    | None => "Unknown"
    end in
  let participants_str :=
    match participants with
    | [] => "Unknown"
    | _ => PyStr.join ", " participants
    end in
  [ "# Meeting: " ++ title;
    "";
    "**Date**: " ++ date_str;
    "**Participants**: " ++ participants_str;
    "**Source**: granola";
    "**Meeting ID**: " ++ meeting_id;
    "";
    "## Notes";
    (if String.eqb (PyStr.strip notes) "" then "No notes available" else notes);
    "";
    "## Summary";
    (if String.eqb (PyStr.strip summary) "" then "No summary available"
     else summary);
    "";
    "## Transcript Highlights" ].

Definition format_inbox_file (m : meeting) (state : CacheState) : string :=
  let transcript := get_transcript m state in
  let lines := (inbox_lines m state ++ [transcript_section transcript])%list in
  PyStr.join (String "010" "") lines ++ String "010" "".

Definition inbox_filename (m : meeting) (state : CacheState) : string :=
  let date := get_meeting_date m in
  let date_str :=
    match date with
    | Some d => Datetime.strftime_date d
    | None => "undated"
    end in
  let title := get_meeting_title m in
  let slug := slugify title in
  "granola-" ++ date_str ++ "-" ++ slug ++ ".md".

(** The two [continue] guards at the head of the loop of [_run]: [Val true]
    when the record goes on to be written. *)
Definition selected (state : CacheState) (cutoff : datetime) (m : meeting)
    : result bool :=
  if negb (has_content m state) then Val false
  else
    match get_updated_at m with
    | Exc e => Exc e
    | Val None => Val false
    | Val (Some updated) =>
        rbind (Datetime.lt updated cutoff) (fun earlier => Val (negb earlier))
    end.

(** The name under which the loop of [_run] writes a record, given the names
    seen so far.  [rsplit] without a dot gives one element, and unpacking it
    into two names raises [ValueError]. *)
Definition run_filename (seen : gset string) (m : meeting) (state : CacheState)
    : result string :=
  let fname := inbox_filename m state in
  if decide (fname ∈ seen) then
    let meeting_id := PyStr.take 8 (get_meeting_id m) in
    match PyStr.rsplit1 "." fname with
    | Some (base, ext) => Val (base ++ "-" ++ meeting_id ++ "." ++ ext)
    | None => Exc ValueError
    end
  else Val fname.

(** The [for] loop of [_run], with its two loop-carried variables. *)
Fixpoint process (state : CacheState) (cutoff : datetime)
    (meetings : list meeting) (written : nat) (seen_filenames : gset string)
    : M (nat * gset string) :=
  match meetings with
  | [] => ret (written, seen_filenames)
  | m :: rest =>
      let! keep := lift (selected state cutoff m) in
      if keep : bool then
        let! fname := lift (run_filename seen_filenames m state) in
        let seen_filenames := {[fname]} ∪ seen_filenames in
        let content := format_inbox_file m state in
        let! _ := write_text fname content in
        process state cutoff rest (S written) seen_filenames
      else process state cutoff rest written seen_filenames
  end.

Definition _run : M Z :=
  match load_cache with
  | CacheNotFound e => let! _ := log (LogCacheWarning e) in ret 0
  | CacheFailed e => let! _ := log (LogCacheError e) in ret 1
  | CacheLoaded state =>
      let! cutoff := get_cutoff in
      let! _ := log (LogProcessing cutoff) in
      let meetings := extract_meetings state in
      let! loop_end := process state cutoff meetings 0%nat ∅ in
      let written := fst loop_end in
      let! _ := log (LogWrote written) in
      let! t := now in
      let! _ := write_state (Datetime.strftime_T_seconds t) in
      ret 0
  end.

(** [main]: take the lock or give up, run, and release in [finally]. *)
Definition main : M Z :=
  fun w =>
    if lock_busy w then (let! _ := log LogLockBusy in ret 0) w
    else
      match _run (set_lock_held true w) with
      | Ok code w' => Ok code (set_lock_held false w')
      | Raise e w' => Raise e (set_lock_held false w')
      end.

End Collector.

(** ** A small reader and one machine, to run the collector on

    The cache state is the list of its records; a record keeps its texts
    under the keys [id], [title], [date], [attendee], [notes], [summary] and
    [transcript]. *)

Module Sample.

Definition text_of (m : meeting) (key : string) : string :=
  match m !! key with
  | Some (VStr s) => s
  | _ => ""
  end.

#[global] Instance sample_reader : GranolaReader (list meeting) := {|
  extract_meetings := fun state => state;
  get_meeting_date := fun m =>
    match Iso.fromisoformat (text_of m "date") with
    | Val d => Some d
    | Exc _ => None
    end;
  get_meeting_id := fun m => text_of m "id";
  get_meeting_title := fun m => text_of m "title";
  get_notes := fun m _ => text_of m "notes";
  get_participants := fun m =>
    match m !! "attendee" with
    | Some (VStr s) => [s]
    | _ => []
    end;
  get_summary := fun m => text_of m "summary";
  get_transcript := fun m _ =>
    match m !! "transcript" with
    | Some (VStr s) => Some s
    | _ => None
    end;
  has_content := fun m _ =>
    negb (String.eqb (text_of m "notes" ++ text_of m "summary"
                      ++ text_of m "transcript") "")
|}.

(** A clock that starts on 2024-03-01 at noon and moves one second between
    two readings. *)
Definition noon : datetime := mkdt 2024 3 1 12 0 0 250000 None.

Definition sample_clock (n : nat) : datetime :=
  Calendar.of_wall_us
    (Calendar.wall_us noon + Z.of_nat n * Calendar.us_per_second) None.

(** A machine in UTC. *)
Definition utc : Z := 0.

(** A first run: no state file, an empty inbox, nothing logged, every file
    writable, the lock free. *)
Definition fresh : World := mkWorld 0 None ∅ [] ∅ false false.

Definition record (id title date : string) (updated_at : value) : meeting :=
  <["id" := VStr id]> (<["title" := VStr title]> (<["date" := VStr date]>
  (<["notes" := VStr "agenda"]> (<["updated_at" := updated_at]> ∅)))).

(** A cache state without records, for the accessors that take the state. *)
Definition no_records : list meeting := [].

(** A record with a transcript. *)
Definition talk (transcript : string) : meeting :=
  <["transcript" := VStr transcript]>
    (record "7f3a9c21-talk" "Design review" "2024-02-27T15:30:00"
            (VInt 1709047800)).

Fixpoint repeat_char (c : ascii) (n : nat) : string :=
  match n with
  | O => EmptyString
  | S k => String c (repeat_char c k)
  end.

(** Timestamps in the four spellings, all for 2024-02-20 10:00:00. *)
Definition in_seconds : value := VInt 1708423200.
Definition in_milliseconds : value := VInt 1708423200000.
Definition iso_z : value := VStr "2024-02-20T10:00:00Z".
Definition iso_fraction_z : value := VStr "2024-02-20T10:00:00.000Z".

Definition standup (updated_at : value) : meeting :=
  record "a1b2c3d4-0001" "Standup" "2024-02-20T10:00:00" updated_at.

(** Three records with one title and one date; the identifiers differ after
    their eighth character. *)
Definition same_slot : list meeting :=
  [ record "abcdefgh-1" "Sync" "2024-02-20T09:00:00" in_seconds;
    record "abcdefgh-2" "Sync" "2024-02-20T11:00:00" in_seconds;
    record "abcdefgh-3" "Sync" "2024-02-20T13:00:00" in_seconds ].

(** Three records whose identifiers differ from the first character on; the
    title of the second ends with the head of the third identifier. *)
Definition crossed_titles : list meeting :=
  [ record "11111111-aaaa" "Sync" "2024-02-20T09:00:00" in_seconds;
    record "22222222-bbbb" "Sync 33333333" "2024-02-20T11:00:00" in_seconds;
    record "33333333-cccc" "Sync" "2024-02-20T13:00:00" in_seconds ].

(** A timestamp too large for [time_t], before a well-formed one. *)
Definition huge_then_good : meeting :=
  <["created_at" := VStr "2024-02-20T10:00:00"]>
    (<["updated_at" := VInt (10 ^ 22)]> ∅).

(** Three talks on three days, and a machine on which the document of the
    second one cannot be written. *)
Definition kickoff : meeting :=
  record "11111111-aaaa" "Kickoff" "2024-02-20T09:00:00" in_seconds.
Definition retro : meeting :=
  record "22222222-bbbb" "Retro" "2024-02-21T09:00:00" in_seconds.
Definition planning : meeting :=
  record "33333333-cccc" "Planning" "2024-02-22T09:00:00" in_seconds.

Definition three_talks : list meeting := [kickoff; retro; planning].

Definition retro_locked : World :=
  mkWorld 0 None ∅ [] {["granola-2024-02-21-retro.md"]} false false.

(** A record last touched in September 2001. *)
Definition stale : meeting :=
  record "44444444-dddd" "Archive" "2001-09-09T01:46:40" (VInt 1000000000).

End Sample.

(** ** Vocabulary of the statements below *)

Definition newline : string := String "010" "".

(** The world an outcome ends in. *)
Definition world_of {A : Type} (o : outcome A) : World :=
  match o with
  | Ok _ w => w
  | Raise _ w => w
  end.

(** [quiet w w']: from [w] to [w'] the state file and the lock are as they
    were, the clock was read zero or more times, and the effects added to
    the trace hold no commit. *)
Definition quiet (w w' : World) : Prop :=
  state_file w' = state_file w
  /\ lock_busy w' = lock_busy w
  /\ lock_held w' = lock_held w
  /\ (ticks w <= ticks w')%nat
  /\ exists evs, trace w' = (trace w ++ evs)%list /\ commits evs = [].

(** The text [YYYY-MM-DDTHH:MM:SS] spelled character by character, and the
    numbers its digits stand for. *)
Module IsoText.

Definition digit_of (c : ascii) : Z := PyStr.code c - 48.

Definition two (a b : ascii) : Z := 10 * (10 * 0 + digit_of a) + digit_of b.

Definition four (a b c d : ascii) : Z :=
  10 * (10 * (10 * (10 * 0 + digit_of a) + digit_of b) + digit_of c)
  + digit_of d.

Definition date_text (y3 y2 y1 y0 m1 m0 d1 d0 : ascii) : string :=
  String y3 (String y2 (String y1 (String y0 (String "-" (String m1
    (String m0 (String "-" (String d1 (String d0 ""))))))))).

Definition time_text (h1 h0 i1 i0 s1 s0 : ascii) : string :=
  String h1 (String h0 (String ":" (String i1 (String i0 (String ":"
    (String s1 (String s0 ""))))))).

Definition stamp_text (y3 y2 y1 y0 m1 m0 d1 d0 h1 h0 i1 i0 s1 s0 : ascii)
    : string :=
  String y3 (String y2 (String y1 (String y0 (String "-" (String m1
    (String m0 (String "-" (String d1 (String d0 (String "T"
      (time_text h1 h0 i1 i0 s1 s0))))))))))).

End IsoText.

(** ** Vocabulary of the further properties *)

(** Every character of [s] satisfies [p]. *)
Fixpoint all_chars (p : ascii -> bool) (s : string) : bool :=
  match s with
  | EmptyString => true
  | String c r => p c && all_chars p r
  end.

(** [s] begins with the character [c]. *)
Definition starts_with (c : ascii) (s : string) : bool :=
  match s with
  | EmptyString => false
  | String d _ => Ascii.eqb c d
  end.

(** No two neighbours in [s] are both the character [c]. *)
Fixpoint no_double (c : ascii) (s : string) : bool :=
  match s with
  | EmptyString => true
  | String d r => negb (Ascii.eqb c d && starts_with c r) && no_double c r
  end.

(** The capitals that [str.lower] changes, for code points below 256. *)
Definition is_capital (c : ascii) : bool :=
  let n := PyStr.code c in
  ((65 <=? n) && (n <=? 90))
  || ((192 <=? n) && (n <=? 222) && negb (n =? 215)).

(** A character that can stand in a slug: legal in a file name, no white
    space, no capital. *)
Definition slug_char (c : ascii) : bool :=
  negb (PyStr.illegal_in_name c) && negb (PyStr.isspace c)
  && negb (is_capital c).

(** The contents of the documents written by a run of events, in order. *)
Definition doc_contents (evs : list event) : list string :=
  omap (fun ev => match ev with EvDoc _ content => Some content | _ => None end)
       evs.

(** [touches w w']: from [w] to [w'] effects were appended to the trace,
    every inbox file not named by a document write is as it was, and every
    file so named exists. *)
Definition touches (w w' : World) : Prop :=
  exists evs,
    trace w' = (trace w ++ evs)%list
    /\ (forall k, k ∉ doc_names evs -> inbox w' !! k = inbox w !! k)
    /\ (forall k, k ∈ doc_names evs -> is_Some (inbox w' !! k)).

(** The guard of the loop as a boolean: [true] when the record is written. *)
Definition keeps {CacheState : Type} {reader : GranolaReader CacheState}
    (local_offset : Z) (state : CacheState) (cutoff : datetime) (m : meeting)
    : bool :=
  match selected local_offset state cutoff m with
  | Val true => true
  | _ => false
  end.

(** * Properties *)

(** ** Strings *)

Lemma append_cons (x : ascii) (a b : string) :
  (String x a ++ b = String x (a ++ b))%string.
Proof. reflexivity. Qed.

Lemma append_assoc (a b c : string) : ((a ++ b) ++ c = a ++ (b ++ c))%string.
Proof.
  induction a as [|x a IH]; [reflexivity|].
  by rewrite !append_cons, IH.
Qed.

Lemma append_empty_r (a : string) : (a ++ "" = a)%string.
Proof.
  induction a as [|x a IH]; [reflexivity|].
  by rewrite append_cons, IH.
Qed.

Lemma join_snoc (sep : string) (parts : list string) (last : string) :
  parts <> [] ->
  PyStr.join sep (parts ++ [last]) = (PyStr.join sep parts ++ sep ++ last)%string.
Proof.
  induction parts as [|p rest IH]; [done|]. intros _.
  destruct rest as [|q rest]; [reflexivity|].
  change (PyStr.join sep ((p :: q :: rest) ++ [last]))
    with (p ++ sep ++ PyStr.join sep ((q :: rest) ++ [last]))%string.
  rewrite IH by done.
  change (PyStr.join sep (p :: q :: rest))
    with (p ++ sep ++ PyStr.join sep (q :: rest))%string.
  by rewrite !append_assoc.
Qed.

Lemma strip_empty : PyStr.strip "" = "".
Proof. reflexivity. Qed.

Lemma not_blank_not_empty (t : string) : PyStr.strip t <> "" -> t <> "".
Proof. intros H ->. by apply H. Qed.

(** ** The timestamp resolver *)

Section Resolver.

Variable local_offset : Z.

(** A field whose value is falsy resolves as if the record did not have it. *)
Lemma get_updated_at_from_falsy (fields : list string) (m : meeting)
    (field : string) (v : value) :
  truthy v = false ->
  get_updated_at_from local_offset fields (<[field := v]> m)
  = get_updated_at_from local_offset fields (delete field m).
Proof.
  intros Hv. induction fields as [|f rest IH]; [reflexivity|].
  simpl. destruct (decide (field = f)) as [->|Hne].
  - rewrite lookup_insert_eq, lookup_delete_eq. simpl. rewrite Hv. simpl. exact IH.
  - rewrite lookup_insert_ne, lookup_delete_ne by done. rewrite IH. reflexivity.
Qed.


End Resolver.

(** ** The content formatter *)

Section Formatter.

Context {CacheState : Type} {reader : GranolaReader CacheState}.

(** C4. The formatter returns a document for every record: fifteen lines in
    a fixed order, each optional part replaced by its placeholder when the
    part is absent or empty and printed as it is otherwise. *)
Theorem format_inbox_file_shape (m : meeting) (state : CacheState) :
  exists date_str participants_str notes_body summary_body transcript_body,
    format_inbox_file m state
    = (PyStr.join newline
         [ "# Meeting: " ++ get_meeting_title m;
           "";
           "**Date**: " ++ date_str;
           "**Participants**: " ++ participants_str;
           "**Source**: granola";
           "**Meeting ID**: " ++ get_meeting_id m;
           "";
           "## Notes";
           notes_body;
           "";
           "## Summary";
           summary_body;
           "";
           "## Transcript Highlights";
           transcript_body ] ++ newline)%string
    /\ match get_meeting_date m with
       | None => date_str = "Unknown"
       | Some d => date_str = Datetime.strftime_minutes d
       end
    /\ match get_participants m with
       | [] => participants_str = "Unknown"
       | names => participants_str = PyStr.join ", " names
       end
    /\ (get_notes m state = "" -> notes_body = "No notes available")
    /\ (PyStr.strip (get_notes m state) <> "" -> notes_body = get_notes m state)
    /\ (get_summary m = "" -> summary_body = "No summary available")
    /\ (PyStr.strip (get_summary m) <> "" -> summary_body = get_summary m)
    /\ (get_transcript m state = None -> transcript_body = "No transcript available")
    /\ (get_transcript m state = Some "" -> transcript_body = "No transcript available").
Proof.
  eexists _, _, _, _, _. split; [reflexivity|].
  split; [by destruct (get_meeting_date m)|].
  split; [by destruct (get_participants m)|].
  split; [by intros ->|].
  split; [intros H; by apply String.eqb_neq in H as -> |].
  split; [by intros ->|].
  split; [intros H; by apply String.eqb_neq in H as -> |].
  split; by intros ->.
Qed.

(** The transcript part of a document, for a transcript that is not blank. *)
Lemma transcript_section_not_blank (t : string) :
  PyStr.strip t <> "" ->
  transcript_section (Some t)
  = if (TRANSCRIPT_CAP <? String.length t)%nat
    then (PyStr.take TRANSCRIPT_CAP t ++ newline ++ newline
          ++ "[... transcript truncated]")%string
    else t.
Proof.
  intros H. unfold transcript_section.
  apply not_blank_not_empty in H as H0.
  apply String.eqb_neq in H as ->. apply String.eqb_neq in H0 as ->.
  reflexivity.
Qed.

Lemma format_inbox_file_split (m : meeting) (state : CacheState) :
  format_inbox_file m state
  = (PyStr.join newline (inbox_lines m state) ++ newline
     ++ transcript_section (get_transcript m state) ++ newline)%string.
Proof.
  unfold format_inbox_file. cbv zeta. fold newline.
  rewrite join_snoc by done. by rewrite !append_assoc.
Qed.

(** C8, amended. For a transcript with at least one character that is not
    white space: at a length up to the cap the document ends with the
    transcript as it is; above the cap it ends with the first [cap]
    characters, an empty line and the truncation marker. *)
Theorem transcript_cut_at_cap (m : meeting) (state : CacheState) (t : string) :
  get_transcript m state = Some t ->
  PyStr.strip t <> "" ->
  ((String.length t <= TRANSCRIPT_CAP)%nat ->
     format_inbox_file m state
     = (PyStr.join newline (inbox_lines m state) ++ newline
        ++ t ++ newline)%string)
  /\ ((TRANSCRIPT_CAP < String.length t)%nat ->
     format_inbox_file m state
     = (PyStr.join newline (inbox_lines m state) ++ newline
        ++ (PyStr.take TRANSCRIPT_CAP t ++ newline ++ newline
            ++ "[... transcript truncated]")
        ++ newline)%string).
Proof.
  intros Ht Hnb. rewrite format_inbox_file_split, Ht.
  rewrite transcript_section_not_blank by done.
  split; intros Hlen.
  - apply Nat.ltb_ge in Hlen. by rewrite Hlen.
  - apply Nat.ltb_lt in Hlen. by rewrite Hlen.
Qed.

End Formatter.

(** C8, as stated, fails on a transcript of 5001 blanks: its length is above
    the cap, yet the document carries the placeholder and neither the first
    5000 characters nor the marker. *)
Lemma blank_transcript_is_not_cut :
  let t := Sample.repeat_char " " (S TRANSCRIPT_CAP) in
  let m := Sample.talk t in
  String.length t = S TRANSCRIPT_CAP
  /\ get_transcript m Sample.no_records = Some t
  /\ format_inbox_file m Sample.no_records
     = (PyStr.join newline (inbox_lines m Sample.no_records) ++ newline
        ++ "No transcript available" ++ newline)%string
  /\ format_inbox_file m Sample.no_records
     <> (PyStr.join newline (inbox_lines m Sample.no_records) ++ newline
         ++ (PyStr.take TRANSCRIPT_CAP t ++ newline ++ newline
             ++ "[... transcript truncated]")
         ++ newline)%string.
Proof.
  cbv zeta. split; [by vm_compute|]. split; [by vm_compute|].
  split; [by vm_compute|].
  apply String.eqb_neq. by vm_compute.
Qed.

(** The amended C8 at a transcript of 5001 letters. *)
Lemma transcript_cut_at_cap_witness :
  let t := Sample.repeat_char "x" (S TRANSCRIPT_CAP) in
  let m := Sample.talk t in
  get_transcript m Sample.no_records = Some t
  /\ PyStr.strip t <> ""
  /\ ((String.length t <= TRANSCRIPT_CAP)%nat ->
        format_inbox_file m Sample.no_records
        = (PyStr.join newline (inbox_lines m Sample.no_records) ++ newline
           ++ t ++ newline)%string)
  /\ ((TRANSCRIPT_CAP < String.length t)%nat ->
        format_inbox_file m Sample.no_records
        = (PyStr.join newline (inbox_lines m Sample.no_records) ++ newline
           ++ (PyStr.take TRANSCRIPT_CAP t ++ newline ++ newline
               ++ "[... transcript truncated]")
           ++ newline)%string).
Proof.
  cbv zeta.
  assert (H1 : get_transcript
                 (Sample.talk (Sample.repeat_char "x" (S TRANSCRIPT_CAP)))
                 Sample.no_records
               = Some (Sample.repeat_char "x" (S TRANSCRIPT_CAP)))
    by (vm_compute; reflexivity).
  assert (H2 : PyStr.strip (Sample.repeat_char "x" (S TRANSCRIPT_CAP)) <> "")
    by (vm_compute; discriminate).
  split; [exact H1|]. split; [exact H2|].
  exact (transcript_cut_at_cap _ Sample.no_records _ H1 H2).
Defined.

(** ** Selection *)

Section Selection.

Context {CacheState : Type} {reader : GranolaReader CacheState}.
Variable local_offset : Z.

(** X9. A record goes on to be written exactly when it has content, its update
    instant resolves, and the comparison with the cutoff is defined and does
    not put the instant before the cutoff. *)
Lemma selected_true_iff (state : CacheState) (cutoff : datetime) (m : meeting) :
  selected local_offset state cutoff m = Val true
  <-> has_content m state = true
      /\ exists updated,
           get_updated_at local_offset m = Val (Some updated)
           /\ Datetime.lt updated cutoff = Val false.
Proof.
  unfold selected. destruct (has_content m state); simpl.
  2: { split; [done | by intros [? _]]. }
  destruct (get_updated_at local_offset m) as [[u|]|e].
  - destruct (Datetime.lt u cutoff) as [[]|e'] eqn:Hlt; simpl; split.
    + done.
    + intros [_ (u' & Hu & Hlt')]. congruence.
    + intros _. split; [done|]. by exists u.
    + done.
    + done.
    + intros [_ (u' & Hu & Hlt')]. congruence.
  - split; [done | intros [_ (u' & Hu & _)]; congruence].
  - split; [done | intros [_ (u' & Hu & _)]; congruence].
Qed.

(** Between two naive instants the comparison is always defined. *)
Lemma lt_naive (a b : datetime) :
  tzinfo a = None -> tzinfo b = None ->
  Datetime.lt a b = Val (Datetime.is_Lt (Datetime.fields_compare a b)).
Proof. unfold Datetime.lt. by intros -> ->. Qed.

End Selection.

(** C1, at the failing record. With the update time written as an ISO string
    that ends in Z and has no fraction, and a naive cutoff, the record has
    content and its instant resolves, but the comparison with the cutoff
    raises [TypeError]; the run stops with that error, nothing written and
    no state file.  The three other spellings of the same time are selected. *)
Theorem iso_z_record_stops_the_run :
  let cutoff := Datetime.sub_days (Sample.sample_clock 0) 30 in
  let m := Sample.standup Sample.iso_z in
  has_content m [m] = true
  /\ get_updated_at Sample.utc m = Val (Some (mkdt 2024 2 20 10 0 0 0 (Some 0)))
  /\ tzinfo cutoff = None
  /\ selected Sample.utc [m] cutoff m = Exc TypeError
  /\ (exists w',
        main Sample.utc Sample.sample_clock (CacheLoaded [m]) Sample.fresh
        = Raise TypeError w'
        /\ doc_names (trace w') = [] /\ state_file w' = None)
  /\ selected Sample.utc [m] cutoff (Sample.standup Sample.in_seconds) = Val true
  /\ selected Sample.utc [m] cutoff (Sample.standup Sample.in_milliseconds)
     = Val true
  /\ selected Sample.utc [m] cutoff (Sample.standup Sample.iso_fraction_z)
     = Val true.
Proof.
  cbv zeta. repeat split; try (by vm_compute).
  eexists. split; [by vm_compute|]. by vm_compute.
Qed.

(** C5, at two failing records. An ISO string that ends in Z and has no
    fraction resolves to an aware instant, not a naive one; and an integer
    beyond the range of [time_t] makes the resolver raise [OverflowError]
    although the next candidate field alone would resolve. *)
Theorem resolver_aware_instant_and_overflow :
  get_updated_at Sample.utc (Sample.standup Sample.iso_z)
  = Val (Some (mkdt 2024 2 20 10 0 0 0 (Some 0)))
  /\ get_updated_at Sample.utc (Sample.standup Sample.iso_fraction_z)
     = Val (Some (mkdt 2024 2 20 10 0 0 0 None))
  /\ get_updated_at Sample.utc Sample.huge_then_good = Exc OverflowError
  /\ get_updated_at Sample.utc (delete "updated_at" Sample.huge_then_good)
     = Val (Some (mkdt 2024 2 20 10 0 0 0 None)).
Proof. repeat split; by vm_compute. Qed.

(** C6, at two failing caches of three records each. The third record gets
    the name already given to the second one, so three documents are written
    under two names and the inbox ends with two files. *)
Theorem third_same_name_overwrites_second :
  (exists w',
     main Sample.utc Sample.sample_clock (CacheLoaded Sample.same_slot)
          Sample.fresh = Ok 0 w'
     /\ doc_names (trace w')
        = [ "granola-2024-02-20-sync.md";
            "granola-2024-02-20-sync-abcdefgh.md";
            "granola-2024-02-20-sync-abcdefgh.md" ]
     /\ size (inbox w') = 2%nat)
  /\ (exists w',
        main Sample.utc Sample.sample_clock (CacheLoaded Sample.crossed_titles)
             Sample.fresh = Ok 0 w'
        /\ doc_names (trace w')
           = [ "granola-2024-02-20-sync.md";
               "granola-2024-02-20-sync-33333333.md";
               "granola-2024-02-20-sync-33333333.md" ]
        /\ size (inbox w') = 2%nat).
Proof.
  split; (eexists; split; [by vm_compute|]; split; by vm_compute).
Qed.

(** ** The watermark store *)

Lemma fromisoformat_raises_ValueError (s : string) (e : exn) :
  Iso.fromisoformat s = Exc e -> e = ValueError.
Proof.
  unfold Iso.fromisoformat. intros H.
  repeat case_match; congruence.
Qed.

Section Watermark.

Variable clock : nat -> datetime.


End Watermark.

(** ** The text of a committed watermark *)

Import IsoText.

Lemma digit_char_spec (d : Z) :
  0 <= d < 10 ->
  PyStr.isdigit (PyStr.digit_char d) = true
  /\ PyStr.code (PyStr.digit_char d) - 48 = d.
Proof.
  intros H.
  assert (d = 0 \/ d = 1 \/ d = 2 \/ d = 3 \/ d = 4 \/ d = 5 \/ d = 6 \/ d = 7
          \/ d = 8 \/ d = 9) as Hd by lia.
  repeat destruct Hd as [-> | Hd]; try subst d; by vm_compute.
Qed.

Lemma isdigit_plain (c : ascii) :
  PyStr.isdigit c = true ->
  Ascii.eqb "-" c = false /\ Ascii.eqb "+" c = false /\ PyStr.isspace c = false.
Proof.
  destruct c as [[] [] [] [] [] [] [] []]; vm_compute; intros H;
    first [discriminate H | done].
Qed.

Lemma fixed_digits_two (a b : ascii) :
  PyStr.isdigit a = true -> PyStr.isdigit b = true ->
  Iso.fixed_digits 2 (String a (String b "")) = Some (two a b).
Proof.
  intros Ha Hb. unfold Iso.fixed_digits, PyStr.parse_digits.
  cbn [String.length Nat.eqb PyStr.digits_onto]. by rewrite Ha, Hb.
Qed.

Lemma fixed_digits_four (a b c d : ascii) :
  PyStr.isdigit a = true -> PyStr.isdigit b = true ->
  PyStr.isdigit c = true -> PyStr.isdigit d = true ->
  Iso.fixed_digits 4 (String a (String b (String c (String d ""))))
  = Some (four a b c d).
Proof.
  intros Ha Hb Hc Hd. unfold Iso.fixed_digits, PyStr.parse_digits.
  cbn [String.length Nat.eqb PyStr.digits_onto]. by rewrite Ha, Hb, Hc, Hd.
Qed.

Lemma parse_isoformat_date_text (y3 y2 y1 y0 m1 m0 d1 d0 : ascii) :
  Forall (fun c => PyStr.isdigit c = true) [y3; y2; y1; y0; m1; m0; d1; d0] ->
  Iso.parse_isoformat_date (date_text y3 y2 y1 y0 m1 m0 d1 d0)
  = Some (four y3 y2 y1 y0, two m1 m0, two d1 d0).
Proof.
  intros H. repeat (apply Forall_cons in H as [? H]).
  unfold Iso.parse_isoformat_date, date_text, PyStr.slice.
  cbn [String.substring String.get Nat.sub String.length Nat.eqb].
  rewrite fixed_digits_four, !fixed_digits_two by done.
  reflexivity.
Qed.

Lemma find_char_time_text (c : ascii) (h1 h0 i1 i0 s1 s0 : ascii) :
  Ascii.eqb c ":" = false ->
  Forall (fun d => Ascii.eqb c d = false) [h1; h0; i1; i0; s1; s0] ->
  PyStr.find_char c (time_text h1 h0 i1 i0 s1 s0) = None.
Proof.
  intros Hc H. repeat (apply Forall_cons in H as [? H]).
  unfold time_text. cbn [PyStr.find_char].
  repeat match goal with E : Ascii.eqb _ _ = false |- _ => rewrite E; clear E end.
  rewrite ?Hc. reflexivity.
Qed.

Lemma parse_hh_mm_ss_ff_text (h1 h0 i1 i0 s1 s0 : ascii) :
  Forall (fun c => PyStr.isdigit c = true) [h1; h0; i1; i0; s1; s0] ->
  Iso.parse_hh_mm_ss_ff (time_text h1 h0 i1 i0 s1 s0)
  = Some (two h1 h0, two i1 i0, two s1 s0, 0).
Proof.
  intros H. repeat (apply Forall_cons in H as [? H]).
  unfold Iso.parse_hh_mm_ss_ff, time_text, PyStr.drop.
  cbn [PyStr.take String.substring String.length Nat.sub].
  rewrite !fixed_digits_two by done. reflexivity.
Qed.

Lemma parse_isoformat_time_text (h1 h0 i1 i0 s1 s0 : ascii) :
  Forall (fun c => PyStr.isdigit c = true) [h1; h0; i1; i0; s1; s0] ->
  Iso.parse_isoformat_time (time_text h1 h0 i1 i0 s1 s0)
  = Some (two h1 h0, two i1 i0, two s1 s0, 0, None).
Proof.
  intros H. unfold Iso.parse_isoformat_time.
  rewrite parse_hh_mm_ss_ff_text by done.
  rewrite !find_char_time_text; [reflexivity | reflexivity | | reflexivity | ].
  - eapply Forall_impl; [exact H|]. intros c Hc.
    by apply isdigit_plain in Hc as (_ & ? & _).
  - eapply Forall_impl; [exact H|]. intros c Hc.
    by apply isdigit_plain in Hc as (? & _).
Qed.

Lemma fromisoformat_stamp_text (y3 y2 y1 y0 m1 m0 d1 d0 h1 h0 i1 i0 s1 s0 : ascii) :
  Forall (fun c => PyStr.isdigit c = true)
         [y3; y2; y1; y0; m1; m0; d1; d0; h1; h0; i1; i0; s1; s0] ->
  Iso.fromisoformat (stamp_text y3 y2 y1 y0 m1 m0 d1 d0 h1 h0 i1 i0 s1 s0)
  = let dt := mkdt (four y3 y2 y1 y0) (two m1 m0) (two d1 d0)
                   (two h1 h0) (two i1 i0) (two s1 s0) 0 None in
    if Datetime.valid_fields dt then Val dt else Exc ValueError.
Proof.
  intros H. unfold Iso.fromisoformat.
  change (PyStr.slice 0 10 (stamp_text y3 y2 y1 y0 m1 m0 d1 d0 h1 h0 i1 i0 s1 s0))
    with (date_text y3 y2 y1 y0 m1 m0 d1 d0).
  change (PyStr.drop 11 (stamp_text y3 y2 y1 y0 m1 m0 d1 d0 h1 h0 i1 i0 s1 s0))
    with (time_text h1 h0 i1 i0 s1 s0).
  change (String.length (stamp_text y3 y2 y1 y0 m1 m0 d1 d0 h1 h0 i1 i0 s1 s0))
    with 19%nat.
  repeat (apply Forall_cons in H as [? H]).
  rewrite parse_isoformat_date_text by (repeat constructor; done).
  rewrite parse_isoformat_time_text by (repeat constructor; done).
  reflexivity.
Qed.

Lemma strip_stamp_text (y3 y2 y1 y0 m1 m0 d1 d0 h1 h0 i1 i0 s1 s0 : ascii) :
  PyStr.isdigit y3 = true -> PyStr.isdigit s0 = true ->
  PyStr.strip (stamp_text y3 y2 y1 y0 m1 m0 d1 d0 h1 h0 i1 i0 s1 s0)
  = stamp_text y3 y2 y1 y0 m1 m0 d1 d0 h1 h0 i1 i0 s1 s0.
Proof.
  intros Hy Hs. apply isdigit_plain in Hy as (_ & _ & Hy).
  apply isdigit_plain in Hs as (_ & _ & Hs).
  unfold PyStr.strip, PyStr.strip_by, PyStr.rstrip_by, stamp_text, time_text.
  cbn [PyStr.lstrip_by]. rewrite Hy.
  cbn [PyStr.rev PyStr.rev_onto PyStr.lstrip_by]. rewrite Hs.
  reflexivity.
Qed.

Lemma append_nil_l (s : string) : ("" ++ s = s)%string.
Proof. reflexivity. Qed.

Lemma decimal_four_digits (y : Z) :
  1000 <= y <= 9999 ->
  PyStr.decimal y
  = String (PyStr.digit_char (y / 10 / 10 / 10 mod 10))
      (String (PyStr.digit_char (y / 10 / 10 mod 10))
         (String (PyStr.digit_char (y / 10 mod 10))
            (String (PyStr.digit_char (y mod 10)) ""))).
Proof.
  intros Hy. unfold PyStr.decimal.
  assert (9 <= Z.log2 y) as Hlog.
  { change 9 with (Z.log2 1000). apply Z.log2_le_mono. lia. }
  destruct (Z.to_nat (Z.log2 y)) as [|[|[|fuel]]] eqn:Hfuel; [lia | lia | lia |].
  cbn [PyStr.decimal_onto].
  assert ((y <? 10) = false) as -> by lia.
  assert ((y / 10 <? 10) = false) as ->
    by (apply Z.ltb_ge; Z.div_mod_to_equations; lia).
  assert ((y / 10 / 10 <? 10) = false) as ->
    by (apply Z.ltb_ge; Z.div_mod_to_equations; lia).
  assert ((y / 10 / 10 / 10 <? 10) = true) as Hlast
    by (apply Z.ltb_lt; Z.div_mod_to_equations; lia).
  destruct fuel; cbn [PyStr.decimal_onto]; by rewrite ?Hlast.
Qed.

Lemma days_in_month_le (y m : Z) : Calendar.days_in_month y m <= 31.
Proof. unfold Calendar.days_in_month. repeat case_match; lia. Qed.

Lemma valid_fields_bounds (d : datetime) :
  Datetime.valid_fields d = true ->
  1 <= year d <= 9999 /\ 1 <= month d <= 12 /\ 1 <= day d <= 31
  /\ 0 <= hour d <= 23 /\ 0 <= minute d <= 59 /\ 0 <= second d <= 59.
Proof.
  unfold Datetime.valid_fields. intros H.
  repeat (apply andb_true_iff in H as [H ?]).
  pose proof (days_in_month_le (year d) (month d)). lia.
Qed.

Lemma valid_fields_whole_seconds (d : datetime) :
  Datetime.valid_fields d = true ->
  Datetime.valid_fields (Datetime.whole_seconds d) = true.
Proof.
  unfold Datetime.valid_fields, Datetime.whole_seconds. simpl.
  intros H. repeat (apply andb_true_iff in H as [H ?]).
  repeat (apply andb_true_iff; split); done.
Qed.

Lemma two_digit_chars (n : Z) :
  0 <= n <= 99 ->
  PyStr.isdigit (PyStr.digit_char (n / 10)) = true
  /\ PyStr.isdigit (PyStr.digit_char (n mod 10)) = true
  /\ two (PyStr.digit_char (n / 10)) (PyStr.digit_char (n mod 10)) = n.
Proof.
  intros Hn.
  destruct (digit_char_spec (n / 10)) as [Ha Ha'];
    [Z.div_mod_to_equations; lia|].
  destruct (digit_char_spec (n mod 10)) as [Hb Hb'];
    [Z.div_mod_to_equations; lia|].
  unfold two, digit_of. rewrite Ha', Hb'. repeat split; try done.
  Z.div_mod_to_equations; lia.
Qed.

Lemma four_digit_chars (y : Z) :
  1000 <= y <= 9999 ->
  let a := PyStr.digit_char (y / 10 / 10 / 10 mod 10) in
  let b := PyStr.digit_char (y / 10 / 10 mod 10) in
  let c := PyStr.digit_char (y / 10 mod 10) in
  let d := PyStr.digit_char (y mod 10) in
  Forall (fun x => PyStr.isdigit x = true) [a; b; c; d] /\ four a b c d = y.
Proof.
  intros Hy.
  destruct (digit_char_spec (y / 10 / 10 / 10 mod 10)) as [Ha Ha'];
    [Z.div_mod_to_equations; lia|].
  destruct (digit_char_spec (y / 10 / 10 mod 10)) as [Hb Hb'];
    [Z.div_mod_to_equations; lia|].
  destruct (digit_char_spec (y / 10 mod 10)) as [Hc Hc'];
    [Z.div_mod_to_equations; lia|].
  destruct (digit_char_spec (y mod 10)) as [Hd Hd'];
    [Z.div_mod_to_equations; lia|].
  cbv zeta. split; [repeat constructor; done|].
  unfold four, digit_of. rewrite Ha', Hb', Hc', Hd'.
  Z.div_mod_to_equations; lia.
Qed.

Lemma strftime_T_seconds_text (t : datetime) :
  1000 <= year t <= 9999 ->
  Datetime.strftime_T_seconds t
  = stamp_text (PyStr.digit_char (year t / 10 / 10 / 10 mod 10))
      (PyStr.digit_char (year t / 10 / 10 mod 10))
      (PyStr.digit_char (year t / 10 mod 10))
      (PyStr.digit_char (year t mod 10))
      (PyStr.digit_char (month t / 10)) (PyStr.digit_char (month t mod 10))
      (PyStr.digit_char (day t / 10)) (PyStr.digit_char (day t mod 10))
      (PyStr.digit_char (hour t / 10)) (PyStr.digit_char (hour t mod 10))
      (PyStr.digit_char (minute t / 10)) (PyStr.digit_char (minute t mod 10))
      (PyStr.digit_char (second t / 10)) (PyStr.digit_char (second t mod 10)).
Proof.
  intros Hy.
  unfold Datetime.strftime_T_seconds, Datetime.strftime_date,
    Datetime.strftime_hms, Datetime.strftime_hm, PyStr.pad2.
  rewrite decimal_four_digits by done.
  by rewrite ?append_cons, ?append_nil_l, ?append_assoc, ?append_cons, ?append_nil_l.
Qed.

(** Formatting an instant of the clock to whole seconds and parsing the
    stripped text gives the instant back without its microseconds. *)
Lemma fromisoformat_strftime (t : datetime) :
  Datetime.valid_fields t = true -> 1000 <= year t -> tzinfo t = None ->
  Iso.fromisoformat (PyStr.strip (Datetime.strftime_T_seconds t))
  = Val (Datetime.whole_seconds t).
Proof.
  intros Hv Hy Htz.
  pose proof (valid_fields_bounds t Hv) as (Hyr & Hmo & Hda & Hho & Hmi & Hse).
  rewrite strftime_T_seconds_text by lia.
  destruct (four_digit_chars (year t)) as [Hyd Hyv]; [lia|]. cbv zeta in Hyd, Hyv.
  repeat (apply Forall_cons in Hyd as [? Hyd]).
  destruct (two_digit_chars (month t)) as (? & ? & Hmo'); [lia|].
  destruct (two_digit_chars (day t)) as (? & ? & Hda'); [lia|].
  destruct (two_digit_chars (hour t)) as (? & ? & Hho'); [lia|].
  destruct (two_digit_chars (minute t)) as (? & ? & Hmi'); [lia|].
  destruct (two_digit_chars (second t)) as (? & ? & Hse'); [lia|].
  rewrite strip_stamp_text by done.
  rewrite fromisoformat_stamp_text by (repeat constructor; done).
  rewrite Hyv, Hmo', Hda', Hho', Hmi', Hse'. cbv zeta.
  apply valid_fields_whole_seconds in Hv.
  unfold Datetime.whole_seconds in *. rewrite Htz in *. by rewrite Hv.
Qed.

(** C10. For an instant of the clock (valid fields, a four-digit year, no
    offset), the text that the commit writes parses on load: loading after
    the commit returns the instant with its microseconds set to zero, reads
    no clock and logs no warning. *)
Theorem commit_then_load_round_trip
    (clock : nat -> datetime) (t : datetime) (w : World) :
  Datetime.valid_fields t = true -> 1000 <= year t -> tzinfo t = None ->
  Iso.fromisoformat (PyStr.strip (Datetime.strftime_T_seconds t))
  = Val (Datetime.whole_seconds t)
  /\ exists w',
       write_state (Datetime.strftime_T_seconds t) w = Ok tt w'
       /\ get_cutoff clock w' = Ok (Datetime.whole_seconds t) w'.
Proof.
  intros Hv Hy Htz.
  pose proof (fromisoformat_strftime t Hv Hy Htz) as Hparse.
  split; [exact Hparse|].
  eexists. split; [reflexivity|].
  unfold get_cutoff. cbn [state_file emit]. by rewrite Hparse.
Qed.

(** The round trip at the first reading of the sample clock. *)
Lemma commit_then_load_round_trip_witness :
  Datetime.valid_fields Sample.noon = true
  /\ 1000 <= year Sample.noon
  /\ tzinfo Sample.noon = None
  /\ Iso.fromisoformat (PyStr.strip (Datetime.strftime_T_seconds Sample.noon))
     = Val (Datetime.whole_seconds Sample.noon)
  /\ exists w',
       write_state (Datetime.strftime_T_seconds Sample.noon) Sample.fresh
       = Ok tt w'
       /\ get_cutoff Sample.sample_clock w'
          = Ok (Datetime.whole_seconds Sample.noon) w'.
Proof.
  assert (H1 : Datetime.valid_fields Sample.noon = true) by reflexivity.
  assert (H2 : 1000 <= year Sample.noon) by (simpl; lia).
  assert (H3 : tzinfo Sample.noon = None) by reflexivity.
  split; [exact H1|]. split; [exact H2|]. split; [exact H3|].
  exact (commit_then_load_round_trip Sample.sample_clock Sample.noon
           Sample.fresh H1 H2 H3).
Defined.

(** ** Runs *)

Lemma commits_app (a b : list event) : commits (a ++ b) = (commits a ++ commits b)%list.
Proof. unfold commits. apply omap_app. Qed.

Lemma quiet_refl (w : World) : quiet w w.
Proof.
  repeat split; try done. exists []. by rewrite app_nil_r.
Qed.

Lemma quiet_trans (w1 w2 w3 : World) : quiet w1 w2 -> quiet w2 w3 -> quiet w1 w3.
Proof.
  intros (Hs & Hb & Hh & Ht & evs & Htr & Hc) (Hs' & Hb' & Hh' & Ht' & evs' & Htr' & Hc').
  repeat split; try congruence; [lia|].
  exists (evs ++ evs')%list. split.
  - by rewrite Htr', Htr, app_assoc.
  - by rewrite commits_app, Hc, Hc'.
Qed.

Lemma quiet_tick (w : World) : quiet w (tick w).
Proof.
  repeat split; try done; [simpl; lia|]. exists []. by rewrite app_nil_r.
Qed.

Lemma quiet_emit (ev : event) (w : World) :
  commits [ev] = [] -> quiet w (emit ev w).
Proof. intros H. repeat split; try done. by exists [ev]. Qed.

Section Run.

Context {CacheState : Type} {reader : GranolaReader CacheState}.
Variable local_offset : Z.
Variable clock : nat -> datetime.

Lemma log_spec (msg : log_msg) (w : World) :
  log clock msg w
  = Ok tt (emit (EvLog (Datetime.strftime_seconds (clock (ticks w))) msg) (tick w)).
Proof. reflexivity. Qed.

Lemma quiet_log (msg : log_msg) (w : World) :
  quiet w (world_of (log clock msg w))
  /\ ticks (world_of (log clock msg w)) = S (ticks w).
Proof.
  rewrite log_spec. split; [|done].
  eapply quiet_trans; [apply quiet_tick | by apply quiet_emit].
Qed.

Lemma quiet_write_text (fname content : string) (w : World) :
  quiet w (world_of (write_text fname content w))
  /\ ticks (world_of (write_text fname content w)) = ticks w.
Proof.
  unfold write_text. case_decide; simpl; [split; [apply quiet_refl | done]|].
  split; [|done]. repeat split; try done. by exists [EvDoc fname content].
Qed.

Lemma quiet_get_cutoff (w : World) :
  exists cutoff w', get_cutoff clock w = Ok cutoff w' /\ quiet w w'.
Proof.
  unfold get_cutoff. destruct (state_file w) as [content|].
  - destruct (Iso.fromisoformat (PyStr.strip content)) as [d|e] eqn:Hparse.
    + eexists _, _. split; [done | apply quiet_refl].
    + apply fromisoformat_raises_ValueError in Hparse as ->.
      eexists _, _. split; [reflexivity|].
      eapply quiet_trans; [apply (quiet_log (LogInvalidState (PyStr.strip content)) w)|].
      rewrite log_spec. apply quiet_tick.
  - eexists _, _. split; [reflexivity | apply quiet_tick].
Qed.

Lemma process_cons (state : CacheState) (cutoff : datetime) (m : meeting)
    (rest : list meeting) (written : nat) (seen : gset string) (w : World) :
  process local_offset state cutoff (m :: rest) written seen w
  = match selected local_offset state cutoff m with
    | Exc e => Raise e w
    | Val false => process local_offset state cutoff rest written seen w
    | Val true =>
        match run_filename seen m state with
        | Exc e => Raise e w
        | Val fname =>
            match write_text fname (format_inbox_file m state) w with
            | Raise e w1 => Raise e w1
            | Ok _ w1 =>
                process local_offset state cutoff rest (S written)
                        ({[fname]} ∪ seen) w1
            end
        end
    end.
Proof.
  cbn [process]. unfold bind, lift.
  destruct (selected local_offset state cutoff m) as [[]|e]; [|done|done].
  destruct (run_filename seen m state) as [fname|e]; done.
Qed.

Lemma quiet_process (state : CacheState) (cutoff : datetime) (ms : list meeting)
    (written : nat) (seen : gset string) (w : World) :
  quiet w (world_of (process local_offset state cutoff ms written seen w))
  /\ ticks (world_of (process local_offset state cutoff ms written seen w))
     = ticks w.
Proof.
  revert written seen w. induction ms as [|m rest IH]; intros written seen w.
  - split; [apply quiet_refl | done].
  - rewrite process_cons.
    destruct (selected local_offset state cutoff m) as [[]|e].
    + destruct (run_filename seen m state) as [fname|e].
      * pose proof (quiet_write_text fname (format_inbox_file m state) w) as [Hq Ht].
        destruct (write_text fname (format_inbox_file m state) w) as [[] w1|e w1];
          simpl in Hq, Ht; [|by split].
        destruct (IH (S written) ({[fname]} ∪ seen) w1) as [Hq' Ht'].
        split; [by eapply quiet_trans | congruence].
      * split; [apply quiet_refl | done].
    + apply IH.
    + split; [apply quiet_refl | done].
Qed.
Lemma _run_loaded (state : CacheState) (w : World) :
  exists cutoff w1,
    get_cutoff clock w = Ok cutoff w1 /\ quiet w w1
    /\ _run local_offset clock (CacheLoaded state) w
       = match process local_offset state cutoff (extract_meetings state) 0 ∅
                 (world_of (log clock (LogProcessing cutoff) w1)) with
         | Ok loop_end w3 =>
             let w4 := world_of (log clock (LogWrote (fst loop_end)) w3) in
             let text := Datetime.strftime_T_seconds (clock (ticks w4)) in
             Ok 0 (emit (EvCommit text)
                     (mkWorld (S (ticks w4)) (Some text) (inbox w4) (trace w4)
                              (unwritable w4) (lock_busy w4) (lock_held w4)))
         | Raise e w3 => Raise e w3
         end.
Proof.
  destruct (quiet_get_cutoff w) as (cutoff & w1 & Hc & Hq).
  exists cutoff, w1. split; [done|]. split; [done|].
  unfold _run. unfold bind at 1. rewrite Hc.
  unfold bind at 1. rewrite log_spec. cbn [world_of].
  unfold bind at 1.
  destruct (process _ _ _ _ _ _ _) as [loop_end w3|e w3]; [|done].
  reflexivity.
Qed.
Lemma quiet_set_lock_held_l (b : bool) (w w' : World) :
  quiet (set_lock_held b w) w' ->
  state_file w' = state_file w /\ (ticks w <= ticks w')%nat
  /\ exists evs, trace w' = (trace w ++ evs)%list /\ commits evs = [].
Proof. intros (Hs & _ & _ & Ht & Hev). done. Qed.

(** The file names of one run. *)

Lemma rsplit1_md (s : string) :
  PyStr.rsplit1 "." (s ++ ".md") = Some (s, "md").
Proof.
  induction s as [|c s IH]; [reflexivity|].
  rewrite append_cons. cbn [PyStr.rsplit1]. by rewrite IH.
Qed.

(** A name not used earlier in the run is kept as generated. *)
Lemma run_filename_first_use (seen : gset string) (m : meeting)
    (state : CacheState) :
  inbox_filename m state ∉ seen ->
  run_filename seen m state = Val (inbox_filename m state).
Proof. intros H. unfold run_filename. by rewrite decide_False. Qed.

(** A name used earlier gets the first eight characters of the identifier
    before its extension; whether that name was used too is not looked at. *)
Lemma run_filename_reuse (seen : gset string) (m : meeting)
    (state : CacheState) :
  inbox_filename m state ∈ seen ->
  exists stem,
    inbox_filename m state = (stem ++ ".md")%string
    /\ run_filename seen m state
       = Val (stem ++ "-" ++ PyStr.take 8 (get_meeting_id m) ++ ".md")%string.
Proof.
  intros H. unfold run_filename. rewrite decide_True by done.
  unfold inbox_filename.
  set (date_str := match get_meeting_date m with
                   | Some d => Datetime.strftime_date d
                   | None => "undated"
                   end).
  exists ("granola-" ++ date_str ++ "-" ++ slugify (get_meeting_title m))%string.
  assert (("granola-" ++ date_str ++ "-" ++ slugify (get_meeting_title m) ++ ".md")
          = (("granola-" ++ date_str ++ "-" ++ slugify (get_meeting_title m))
             ++ ".md"))%string as ->
    by (by rewrite !append_assoc).
  split; [reflexivity|]. by rewrite rsplit1_md.
Qed.

(** C2, amended. On a run that takes the lock, loads the cache and returns,
    the exit code is 0 and the watermark is committed exactly once, as the
    last effect of the run, after every document write; the committed text
    is the reading of the clock taken for the commit, formatted to whole
    seconds: the last reading of the run, at least two readings after the
    run began, and no update time of a record. *)
Theorem watermark_committed_once_at_commit_time
    (state : CacheState) (w : World) (code : Z) (w' : World) :
  lock_busy w = false ->
  main local_offset clock (CacheLoaded state) w = Ok code w' ->
  code = 0
  /\ exists evs text,
       trace w' = (trace w ++ evs ++ [EvCommit text])%list
       /\ commits evs = []
       /\ state_file w' = Some text
       /\ text = Datetime.strftime_T_seconds (clock (pred (ticks w')))
       /\ (ticks w + 2 <= pred (ticks w'))%nat.
Proof.
  intros Hfree Hmain. unfold main in Hmain. rewrite Hfree in Hmain.
  destruct (_run_loaded state (set_lock_held true w))
    as (cutoff & w1 & _ & Hq1 & Hrun).
  rewrite Hrun in Hmain. clear Hrun.
  pose proof (quiet_log (LogProcessing cutoff) w1) as [Hq2 Ht2].
  set (w2 := world_of (log clock (LogProcessing cutoff) w1)) in *.
  pose proof (quiet_process state cutoff (extract_meetings state)
                0 ∅ w2) as [Hq3 Ht3].
  destruct (process local_offset state cutoff (extract_meetings state) 0 ∅ w2)
    as [loop_end w3|e w3]; [|discriminate Hmain].
  cbn [world_of] in Hq3, Ht3.
  pose proof (quiet_log (LogWrote (fst loop_end)) w3) as [Hq4 Ht4].
  cbv zeta in Hmain.
  set (w4 := world_of (log clock (LogWrote (fst loop_end)) w3)) in *.
  clearbody w4 w2.
  assert (quiet (set_lock_held true w) w4) as Hq
    by (eapply quiet_trans; [|exact Hq4]; eapply quiet_trans; [|exact Hq3];
        by eapply quiet_trans).
  apply quiet_set_lock_held_l in Hq as (_ & _ & evs & Htr & Hc).
  apply quiet_set_lock_held_l in Hq1 as (_ & Ht1 & _).
  injection Hmain as <- <-. split; [done|].
  exists evs, (Datetime.strftime_T_seconds (clock (ticks w4))).
  cbn [trace emit set_lock_held state_file ticks Nat.pred].
  rewrite Htr, <- app_assoc. repeat split; try done. lia.
Qed.

End Run.

(** C2, as stated, fails on a first run over three talks with a clock that
    moves a second per reading: the run began at 12:00:00 and the committed
    text is the fourth reading, 12:00:03.  A run that finds no cache also
    exits with 0 and commits nothing. *)
Lemma commit_is_not_the_run_start :
  let run :=
    main Sample.utc Sample.sample_clock (CacheLoaded Sample.three_talks)
         Sample.fresh in
  run = Ok 0 (world_of run)
  /\ Datetime.strftime_T_seconds (Sample.sample_clock (ticks Sample.fresh))
     = "2024-03-01T12:00:00"
  /\ commits (trace (world_of run)) = ["2024-03-01T12:00:03"]
  /\ state_file (world_of run)
     <> Some (Datetime.strftime_T_seconds
                (Sample.sample_clock (ticks Sample.fresh)))
  /\ exists w',
       main Sample.utc Sample.sample_clock
            (CacheNotFound (CacheState := list meeting) "cache not found")
            Sample.fresh = Ok 0 w'
       /\ commits (trace w') = [] /\ state_file w' = None.
Proof.
  cbv zeta. split; [by vm_compute|]. split; [by vm_compute|].
  split; [by vm_compute|]. split; [by vm_compute|].
  eexists. split; [by vm_compute|]. split; by vm_compute.
Qed.

(** The amended C2 on the same run. *)
Lemma watermark_committed_once_at_commit_time_witness :
  let run :=
    main Sample.utc Sample.sample_clock (CacheLoaded Sample.three_talks)
         Sample.fresh in
  lock_busy Sample.fresh = false
  /\ run = Ok 0 (world_of run)
  /\ 0 = 0
  /\ exists evs text,
       trace (world_of run) = (trace Sample.fresh ++ evs ++ [EvCommit text])%list
       /\ commits evs = []
       /\ state_file (world_of run) = Some text
       /\ text = Datetime.strftime_T_seconds
                   (Sample.sample_clock (pred (ticks (world_of run))))
       /\ (ticks Sample.fresh + 2 <= pred (ticks (world_of run)))%nat.
Proof.
  cbv zeta.
  assert (H1 : lock_busy Sample.fresh = false) by reflexivity.
  assert (H2 : main Sample.utc Sample.sample_clock
                 (CacheLoaded Sample.three_talks) Sample.fresh
               = Ok 0 (world_of (main Sample.utc Sample.sample_clock
                                   (CacheLoaded Sample.three_talks) Sample.fresh)))
    by (vm_compute; reflexivity).
  split; [exact H1|]. split; [exact H2|].
  exact (watermark_committed_once_at_commit_time Sample.utc Sample.sample_clock
           Sample.three_talks Sample.fresh 0 _ H1 H2).
Defined.



(** * Further properties *)

(** ** Slugs *)

Lemma all_chars_impl (p q : ascii -> bool) (s : string) :
  (forall c, p c = true -> q c = true) ->
  all_chars p s = true -> all_chars q s = true.
Proof.
  intros Hpq. induction s as [|c r IH]; [done|]. cbn [all_chars].
  intros [Hc Hr]%andb_true_iff. apply andb_true_iff. split; auto.
Qed.

Lemma all_chars_rev_onto (p : ascii -> bool) (s acc : string) :
  all_chars p (PyStr.rev_onto s acc) = all_chars p s && all_chars p acc.
Proof.
  revert acc. induction s as [|c r IH]; intros acc; [done|].
  cbn [PyStr.rev_onto all_chars]. rewrite IH. cbn [all_chars].
  destruct (p c), (all_chars p r), (all_chars p acc); done.
Qed.

Lemma all_chars_rev (p : ascii -> bool) (s : string) :
  all_chars p (PyStr.rev s) = all_chars p s.
Proof. unfold PyStr.rev. rewrite all_chars_rev_onto. cbn. by rewrite andb_true_r. Qed.

Lemma all_chars_lstrip_by (p q : ascii -> bool) (s : string) :
  all_chars p s = true -> all_chars p (PyStr.lstrip_by q s) = true.
Proof.
  induction s as [|c r IH]; [done|]. cbn [all_chars PyStr.lstrip_by].
  intros [Hc Hr]%andb_true_iff. destruct (q c); [auto|].
  cbn [all_chars]. by rewrite Hc, Hr.
Qed.

Lemma all_chars_strip_by (p q : ascii -> bool) (s : string) :
  all_chars p s = true -> all_chars p (PyStr.strip_by q s) = true.
Proof.
  intros H. unfold PyStr.strip_by, PyStr.rstrip_by.
  rewrite all_chars_rev. apply all_chars_lstrip_by. rewrite all_chars_rev.
  by apply all_chars_lstrip_by.
Qed.

Lemma all_chars_take (p : ascii -> bool) (n : nat) (s : string) :
  all_chars p s = true -> all_chars p (PyStr.take n s) = true.
Proof.
  revert s. induction n as [|n IH]; intros [|c r]; try done.
  cbn [all_chars PyStr.take]. intros [Hc Hr]%andb_true_iff.
  rewrite Hc. by apply IH.
Qed.

Lemma all_chars_remove_if (q : ascii -> bool) (s : string) :
  all_chars (fun c => negb (q c)) (PyStr.remove_if q s) = true.
Proof.
  induction s as [|c r IH]; [done|]. cbn [PyStr.remove_if].
  destruct (q c) eqn:Hq; [done|]. cbn [all_chars]. by rewrite Hq, IH.
Qed.

Lemma all_chars_collapse_from (p q : ascii -> bool) (by_ : ascii) (b : bool)
    (s : string) :
  p by_ = true ->
  all_chars (fun c => q c || p c) s = true ->
  all_chars p (PyStr.collapse_from q by_ b s) = true.
Proof.
  intros Hby. revert b. induction s as [|c r IH]; intros b; [done|].
  cbn [all_chars PyStr.collapse_from]. intros [Hc Hr]%andb_true_iff.
  destruct (q c) eqn:Hq.
  - destruct b; [by apply IH|]. cbn [all_chars]. rewrite Hby. by apply IH.
  - cbn [all_chars]. simpl in Hc. rewrite Hc. by apply IH.
Qed.

Lemma all_chars_lower (p q : ascii -> bool) (s : string) :
  (forall c, p c = true -> q (PyStr.lower_char c) = true) ->
  all_chars p s = true -> all_chars q (PyStr.lower s) = true.
Proof.
  intros Hpq. induction s as [|c r IH]; [done|].
  cbn [all_chars PyStr.lower]. intros [Hc Hr]%andb_true_iff.
  rewrite (Hpq c Hc). by apply IH.
Qed.

Lemma lower_char_slug_char (c : ascii) :
  negb (PyStr.illegal_in_name c) && negb (PyStr.isspace c) = true ->
  slug_char (PyStr.lower_char c) = true.
Proof.
  destruct c as [[] [] [] [] [] [] [] []]; vm_compute; intros H;
    first [discriminate H | reflexivity].
Qed.

Lemma take_length_le (n : nat) (s : string) : (String.length (PyStr.take n s) <= n)%nat.
Proof.
  revert s. induction n as [|n IH]; intros [|c r]; cbn [PyStr.take String.length];
    try lia. specialize (IH r). lia.
Qed.

(** X1. The slug is never empty and never longer than 80 characters. *)
Theorem slugify_length (title : string) :
  slugify title <> "" /\ (String.length (slugify title) <= 80)%nat.
Proof.
  unfold slugify.
  set (slug := PyStr.strip_char "-" _).
  destruct (String.eqb_spec slug "") as [->|Hne]; [split; [done | cbn; lia]|].
  split; [|apply take_length_le].
  destruct slug as [|c r]; [done|]. done.
Qed.



Lemma rev_onto_app (s acc : string) :
  PyStr.rev_onto s acc = (PyStr.rev s ++ acc)%string.
Proof.
  unfold PyStr.rev. revert acc. induction s as [|c r IH]; intros acc; [done|].
  cbn [PyStr.rev_onto]. rewrite IH, (IH (String c "")).
  by rewrite append_assoc.
Qed.

Lemma rev_snoc (s : string) (x : ascii) :
  PyStr.rev (s ++ String x "") = String x (PyStr.rev s).
Proof.
  unfold PyStr.rev. generalize EmptyString at 2 3 as acc.
  induction s as [|c r IH]; intros acc; [done|].
  rewrite append_cons. cbn [PyStr.rev_onto]. apply IH.
Qed.

Lemma lstrip_by_snoc_keep (p : ascii -> bool) (s : string) (x : ascii) :
  p x = false ->
  PyStr.lstrip_by p (s ++ String x "")
  = (PyStr.lstrip_by p s ++ String x "")%string.
Proof.
  intros Hx. induction s as [|c r IH].
  - rewrite append_nil_l. cbn [PyStr.lstrip_by]. by rewrite Hx.
  - rewrite append_cons. cbn [PyStr.lstrip_by]. destruct (p c); [exact IH | done].
Qed.

Lemma rstrip_by_cons_keep (p : ascii -> bool) (x : ascii) (r : string) :
  p x = false ->
  PyStr.rstrip_by p (String x r) = String x (PyStr.rstrip_by p r).
Proof.
  intros Hx. unfold PyStr.rstrip_by.
  assert (PyStr.rev (String x r) = (PyStr.rev r ++ String x "")%string) as ->
    by (unfold PyStr.rev at 1; cbn [PyStr.rev_onto]; apply rev_onto_app).
  rewrite lstrip_by_snoc_keep by done. apply rev_snoc.
Qed.

Lemma strip_by_head (p : ascii -> bool) (s : string) :
  match PyStr.strip_by p s with
  | EmptyString => True
  | String x _ => p x = false
  end.
Proof.
  unfold PyStr.strip_by.
  assert (H : match PyStr.lstrip_by p s with
              | EmptyString => True
              | String x _ => p x = false
              end).
  { induction s as [|c r IH]; [done|]. cbn [PyStr.lstrip_by].
    destruct (p c) eqn:Hc; [exact IH | exact Hc]. }
  destruct (PyStr.lstrip_by p s) as [|x r]; [done|].
  by rewrite rstrip_by_cons_keep.
Qed.

Lemma no_double_rev_onto (c : ascii) (s acc : string) :
  no_double c (PyStr.rev_onto s acc)
  = no_double c s && no_double c acc
    && negb (starts_with c s && starts_with c acc).
Proof.
  revert acc. induction s as [|x r IH]; intros acc.
  - cbn. by rewrite andb_true_r.
  - cbn [PyStr.rev_onto]. rewrite IH. cbn [no_double starts_with].
    destruct (Ascii.eqb c x), (starts_with c r), (starts_with c acc),
      (no_double c r), (no_double c acc); reflexivity.
Qed.

Lemma no_double_rev (c : ascii) (s : string) :
  no_double c (PyStr.rev s) = no_double c s.
Proof.
  unfold PyStr.rev. rewrite no_double_rev_onto. cbn.
  by rewrite !andb_true_r, andb_false_r, andb_true_r.
Qed.

Lemma no_double_lstrip_by (c : ascii) (q : ascii -> bool) (s : string) :
  no_double c s = true -> no_double c (PyStr.lstrip_by q s) = true.
Proof.
  induction s as [|x r IH]; [done|]. cbn [PyStr.lstrip_by].
  destruct (q x); [|done]. cbn [no_double].
  intros [_ Hr]%andb_true_iff. auto.
Qed.

Lemma no_double_strip_by (c : ascii) (q : ascii -> bool) (s : string) :
  no_double c s = true -> no_double c (PyStr.strip_by q s) = true.
Proof.
  intros H. unfold PyStr.strip_by, PyStr.rstrip_by.
  rewrite no_double_rev. apply no_double_lstrip_by. rewrite no_double_rev.
  by apply no_double_lstrip_by.
Qed.

Lemma starts_with_take (c : ascii) (n : nat) (s : string) :
  starts_with c (PyStr.take n s) = true -> starts_with c s = true.
Proof. destruct n, s; done. Qed.

Lemma no_double_take (c : ascii) (n : nat) (s : string) :
  no_double c s = true -> no_double c (PyStr.take n s) = true.
Proof.
  revert s. induction n as [|n IH]; intros [|x r]; try done.
  cbn [no_double PyStr.take]. intros [Hx Hr]%andb_true_iff.
  rewrite (IH r Hr), andb_true_r.
  destruct (Ascii.eqb c x); [|done]. simpl in *.
  destruct (starts_with c (PyStr.take n r)) eqn:Hs; [|done].
  apply starts_with_take in Hs. by rewrite Hs in Hx.
Qed.

Lemma no_double_collapse_from (c : ascii) (b : bool) (s : string) :
  no_double c (PyStr.collapse_from (Ascii.eqb c) c b s) = true
  /\ (b = true ->
      starts_with c (PyStr.collapse_from (Ascii.eqb c) c b s) = false).
Proof.
  revert b. induction s as [|x r IH]; intros b; [by destruct b|].
  cbn [PyStr.collapse_from]. destruct (Ascii.eqb c x) eqn:Hx.
  - destruct (IH true) as [Hnd Hst]. destruct b; [by split|].
    split; [|done]. cbn [no_double]. rewrite Hnd, (Hst eq_refl).
    by rewrite andb_false_r.
  - destruct (IH false) as [Hnd _]. split.
    + cbn [no_double]. by rewrite Hx, Hnd.
    + intros _. cbn [starts_with]. exact Hx.
Qed.

(** X3. The slug never begins with a hyphen and never holds two hyphens in a
    row. *)
Theorem slugify_hyphens (title : string) :
  starts_with "-" (slugify title) = false
  /\ no_double "-" (slugify title) = true.
Proof.
  unfold slugify.
  set (s4 := PyStr.lower _).
  set (s5 := PyStr.collapse_runs (Ascii.eqb "-") "-" s4).
  assert (H5 : no_double "-" s5 = true)
    by apply (no_double_collapse_from "-" false s4).
  set (s6 := PyStr.strip_char "-" s5).
  assert (H6 : no_double "-" s6 = true) by (by apply no_double_strip_by).
  pose proof (strip_by_head (Ascii.eqb "-") s5) as Hhead.
  fold (PyStr.strip_char "-" s5) in Hhead. fold s6 in Hhead.
  destruct (String.eqb s6 ""); [by split|].
  split; [|by apply no_double_take].
  destruct s6 as [|x r]; [done|]. exact Hhead.
Qed.

(** ** Titles without a usable character *)

Lemma lstrip_by_all (p : ascii -> bool) (s : string) :
  all_chars p s = true -> PyStr.lstrip_by p s = "".
Proof.
  induction s as [|c r IH]; [done|]. cbn [all_chars PyStr.lstrip_by].
  intros [-> Hr]%andb_true_iff. auto.
Qed.

Lemma strip_by_all (p : ascii -> bool) (s : string) :
  all_chars p s = true -> PyStr.strip_by p s = "".
Proof.
  intros H. unfold PyStr.strip_by. by rewrite lstrip_by_all.
Qed.

Lemma lower_char_hyphen (c : ascii) :
  Ascii.eqb "-" c = true -> Ascii.eqb "-" (PyStr.lower_char c) = true.
Proof. intros H. apply Ascii.eqb_eq in H. by subst c. Qed.

(** X4. A title made of nothing but characters illegal in a file name, white
    space and hyphens gives the slug [untitled]; the empty title is one. *)
Theorem slugify_untitled (title : string) :
  all_chars (fun c => PyStr.illegal_in_name c || PyStr.isspace c
                      || Ascii.eqb "-" c) title = true ->
  slugify title = "untitled".
Proof.
  intros Ht. unfold slugify.
  set (s1 := PyStr.remove_if PyStr.illegal_in_name title).
  assert (H1 : all_chars (fun c => PyStr.isspace c || Ascii.eqb "-" c) s1 = true).
  { subst s1. induction title as [|c r IH]; [done|].
    cbn [all_chars PyStr.remove_if] in *.
    apply andb_true_iff in Ht as [Hc Hr].
    destruct (PyStr.illegal_in_name c) eqn:Hi; [by apply IH|].
    cbn [all_chars]. cbn [orb] in Hc. rewrite Hc.
    by apply IH. }
  set (s2 := PyStr.strip s1).
  assert (H2 : all_chars (fun c => PyStr.isspace c || Ascii.eqb "-" c) s2 = true)
    by (by apply all_chars_strip_by).
  set (s3 := PyStr.collapse_runs PyStr.isspace "-" s2).
  assert (H3 : all_chars (Ascii.eqb "-") s3 = true)
    by (by apply all_chars_collapse_from).
  set (s4 := PyStr.lower s3).
  assert (H4 : all_chars (Ascii.eqb "-") s4 = true)
    by (eapply all_chars_lower; [apply lower_char_hyphen | exact H3]).
  set (s5 := PyStr.collapse_runs (Ascii.eqb "-") "-" s4).
  assert (H5 : all_chars (Ascii.eqb "-") s5 = true).
  { apply all_chars_collapse_from; [reflexivity|].
    eapply all_chars_impl; [|exact H4]. intros c ->. done. }
  unfold PyStr.strip_char. by rewrite strip_by_all.
Qed.

(** ** File names *)

Lemma append_length (a b : string) :
  String.length (a ++ b) = (String.length a + String.length b)%nat.
Proof.
  induction a as [|c a IH]; [done|]. rewrite append_cons.
  cbn [String.length]. by rewrite IH.
Qed.

Section Names.

Context {CacheState : Type} {reader : GranolaReader CacheState}.

(** X5. The name under which a record is written is always defined, whatever
    names were seen: the unpacking of [rsplit] cannot fail, and the name
    begins with [granola-] and ends with [.md]. *)
Theorem run_filename_never_raises (seen : gset string) (m : meeting)
    (state : CacheState) :
  exists stem,
    run_filename seen m state = Val ("granola-" ++ stem ++ ".md")%string.
Proof.
  unfold run_filename, inbox_filename.
  set (date_str := match get_meeting_date m with
                   | Some d => Datetime.strftime_date d
                   | None => "undated"
                   end).
  set (slug := slugify (get_meeting_title m)).
  case_decide as Hseen.
  - assert (("granola-" ++ date_str ++ "-" ++ slug ++ ".md")
            = (("granola-" ++ date_str ++ "-" ++ slug) ++ ".md"))%string as ->
      by (by rewrite !append_assoc).
    rewrite rsplit1_md.
    exists (date_str ++ "-" ++ slug ++ "-" ++ PyStr.take 8 (get_meeting_id m))%string.
    by rewrite !append_assoc.
  - exists (date_str ++ "-" ++ slug)%string. by rewrite !append_assoc.
Qed.

(** X6. A record whose generated name was seen is written under another name
    than the generated one. *)
Theorem run_filename_leaves_seen_name (seen : gset string) (m : meeting)
    (state : CacheState) (fname : string) :
  inbox_filename m state ∈ seen ->
  run_filename seen m state = Val fname ->
  fname <> inbox_filename m state.
Proof.
  intros Hseen Hrun.
  destruct (run_filename_reuse seen m state Hseen) as (stem & Hname & Hrun').
  rewrite Hrun' in Hrun. injection Hrun as <-. rewrite Hname.
  intros Heq. apply (f_equal String.length) in Heq.
  rewrite !append_length in Heq. cbn [String.length] in Heq. lia.
Qed.

(** X7. The first two documents of a run never share a name. *)
Theorem first_two_names_differ (m1 m2 : meeting) (state : CacheState)
    (n1 n2 : string) :
  run_filename ∅ m1 state = Val n1 ->
  run_filename {[n1]} m2 state = Val n2 ->
  n1 <> n2.
Proof.
  intros H1 H2.
  destruct (decide (inbox_filename m2 state ∈ ({[n1]} : gset string)))
    as [Hin|Hout].
  - destruct (run_filename_reuse _ m2 state Hin) as (stem & Hname & Hrun).
    rewrite Hrun in H2. injection H2 as <-.
    apply elem_of_singleton in Hin. rewrite Hin in Hname. rewrite Hname.
    intros Heq. apply (f_equal String.length) in Heq.
    rewrite !append_length in Heq. cbn [String.length] in Heq. lia.
  - rewrite run_filename_first_use in H2 by done. injection H2 as <-.
    intros ->. apply Hout. by apply elem_of_singleton.
Qed.

(** ** The transcript part is bounded *)

(** X8. Whatever the transcript, the last part of a document is at most the cap
    and the 28 characters of the marker long. *)
Theorem transcript_section_bounded (transcript : option string) :
  (String.length (transcript_section transcript) <= TRANSCRIPT_CAP + 28)%nat.
Proof.
  assert (Hph : (String.length "No transcript available"
                 <= TRANSCRIPT_CAP + 28)%nat) by (cbn [String.length]; lia).
  unfold transcript_section. destruct transcript as [t|]; [|exact Hph].
  destruct (negb (String.eqb t "") && negb (String.eqb (PyStr.strip t) ""));
    [|exact Hph].
  destruct (TRANSCRIPT_CAP <? String.length t)%nat eqn:Hlen.
  - rewrite append_length. pose proof (take_length_le TRANSCRIPT_CAP t).
    cbn [String.length]. lia.
  - apply Nat.ltb_ge in Hlen. lia.
Qed.

(** ** The cutoff itself is inside the window *)

Lemma fields_compare_refl (d : datetime) : Datetime.fields_compare d d = Eq.
Proof. unfold Datetime.fields_compare. by rewrite !Z.compare_refl. Qed.

Lemma lt_irrefl (d : datetime) : Datetime.lt d d = Val false.
Proof.
  unfold Datetime.lt. destruct (tzinfo d) as [o|].
  - by rewrite Z.eqb_refl, fields_compare_refl.
  - by rewrite fields_compare_refl.
Qed.

Variable local_offset : Z.

(** X10. A record with content whose update instant is the cutoff itself is
    selected: the window is closed on the side of the cutoff. *)
Theorem selected_at_cutoff (state : CacheState) (m : meeting)
    (updated : datetime) :
  has_content m state = true ->
  get_updated_at local_offset m = Val (Some updated) ->
  selected local_offset state updated m = Val true.
Proof.
  intros Hc Hu. unfold selected. rewrite Hc, Hu, lt_irrefl. reflexivity.
Qed.

End Names.

(** ** More on the timestamp resolver *)

Section Resolver2.

Variable local_offset : Z.

(** X11. A candidate whose conversion fails with an error the resolver handles,
    or is of no convertible type, counts as absent. *)
Theorem unresolved_field_is_absent (m : meeting) (field : string) (v : value) :
  convert local_offset v = Val None
  \/ convert local_offset v = Exc ValueError
  \/ convert local_offset v = Exc OSError ->
  get_updated_at local_offset (<[field := v]> m)
  = get_updated_at local_offset (delete field m).
Proof.
  intros Hv. unfold get_updated_at. generalize timestamp_fields as fields.
  induction fields as [|f rest IH]; [reflexivity|].
  cbn [get_updated_at_from]. destruct (decide (field = f)) as [->|Hne].
  - rewrite lookup_insert_eq, lookup_delete_eq. simpl.
    destruct (truthy v); simpl; [|exact IH].
    destruct Hv as [-> | [-> | ->]]; exact IH.
  - rewrite lookup_insert_ne, lookup_delete_ne by done. by rewrite IH.
Qed.

(** X12. The resolver reads the three candidate fields and nothing else. *)
Theorem get_updated_at_other_key (m : meeting) (key : string) (v : value) :
  key ∉ timestamp_fields ->
  get_updated_at local_offset (<[key := v]> m) = get_updated_at local_offset m.
Proof.
  unfold get_updated_at. generalize timestamp_fields as fields.
  induction fields as [|f rest IH]; intros Hkey; [reflexivity|].
  apply not_elem_of_cons in Hkey as [Hne Hrest].
  simpl. rewrite lookup_insert_ne by done.
  by rewrite IH.
Qed.

(** X13. An integer of milliseconds and the same time in seconds resolve alike,
    for times later than 10^9 seconds (in 2001) and up to 10^12 seconds. *)
Theorem milliseconds_agree_with_seconds (n : Z) :
  10 ^ 9 < n <= 10 ^ 12 ->
  convert local_offset (VInt (1000 * n)) = convert local_offset (VInt n).
Proof.
  intros Hn. unfold convert.
  assert ((10 ^ 12 <? 1000 * n) = true) as -> by (apply Z.ltb_lt; lia).
  assert ((10 ^ 12 <? n) = false) as -> by (apply Z.ltb_ge; lia).
  by replace (1000 * n * 1000) with (n * 1000000) by lia.
Qed.

End Resolver2.

(** ** More on runs *)

Lemma doc_names_app (a b : list event) :
  doc_names (a ++ b) = (doc_names a ++ doc_names b)%list.
Proof. unfold doc_names. apply omap_app. Qed.

Lemma doc_contents_app (a b : list event) :
  doc_contents (a ++ b) = (doc_contents a ++ doc_contents b)%list.
Proof. unfold doc_contents. apply omap_app. Qed.

Lemma touches_refl (w : World) : touches w w.
Proof.
  exists []. rewrite app_nil_r. split; [done|]. split; [done|].
  intros k Hk. by apply elem_of_nil in Hk.
Qed.

Lemma touches_trans (w1 w2 w3 : World) :
  touches w1 w2 -> touches w2 w3 -> touches w1 w3.
Proof.
  intros (evs & Htr & Hout & Hin) (evs' & Htr' & Hout' & Hin').
  exists (evs ++ evs')%list. split; [by rewrite Htr', Htr, app_assoc|].
  rewrite doc_names_app. split.
  - intros k Hk. apply not_elem_of_app in Hk as [Hk Hk'].
    by rewrite Hout', Hout.
  - intros k Hk. destruct (decide (k ∈ doc_names evs')) as [Hk'|Hk'].
    + by apply Hin'.
    + rewrite Hout' by done. apply Hin.
      apply elem_of_app in Hk as [Hk|Hk]; done.
Qed.

(** A step that leaves the inbox alone and writes no document. *)
Lemma touches_no_doc (w w' : World) (evs : list event) :
  inbox w' = inbox w -> trace w' = (trace w ++ evs)%list ->
  doc_names evs = [] -> touches w w'.
Proof.
  intros Hi Htr Hn. exists evs. rewrite Hn, Hi. split; [done|].
  split; [done|]. intros k Hk. by apply elem_of_nil in Hk.
Qed.

Section Run2.

Context {CacheState : Type} {reader : GranolaReader CacheState}.
Variable local_offset : Z.
Variable clock : nat -> datetime.

Lemma write_text_ok (fname content : string) (w w1 : World) (u : unit) :
  write_text fname content w = Ok u w1 ->
  trace w1 = (trace w ++ [EvDoc fname content])%list
  /\ inbox w1 = <[fname := content]> (inbox w).
Proof.
  unfold write_text. case_decide; [done|]. by intros [= _ <-].
Qed.

Lemma touches_write_text (fname content : string) (w : World) :
  touches w (world_of (write_text fname content w)).
Proof.
  destruct (write_text fname content w) as [u w1|e w1] eqn:Hw.
  - apply write_text_ok in Hw as [Htr Hi]. exists [EvDoc fname content].
    cbn [world_of]. split; [done|]. rewrite Hi. split.
    + intros k Hk. apply lookup_insert_ne. intros ->. apply Hk.
      cbn. apply list_elem_of_singleton. done.
    + intros k Hk. cbn in Hk. apply list_elem_of_singleton in Hk as ->.
      rewrite lookup_insert_eq. by eexists.
  - unfold write_text in Hw. case_decide; [|done]. injection Hw as _ <-.
    apply touches_refl.
Qed.

Lemma get_cutoff_effects (w : World) (cutoff : datetime) (w1 : World) :
  get_cutoff clock w = Ok cutoff w1 ->
  inbox w1 = inbox w
  /\ exists pre, trace w1 = (trace w ++ pre)%list /\ doc_names pre = []
                 /\ (length pre <= 1)%nat.
Proof.
  unfold get_cutoff. destruct (state_file w) as [content|].
  - destruct (Iso.fromisoformat (PyStr.strip content)) as [d|[]].
    + intros [= _ <-]. split; [done|]. exists []. rewrite app_nil_r.
      cbn. repeat split; lia.
    + intros H. cbv [bind log now ret] in H. injection H as _ <-.
      split; [done|]. eexists [_]. cbn. repeat split; lia.
    + done.
    + done.
    + done.
  - intros [= _ <-]. split; [done|]. exists []. rewrite app_nil_r.
    cbn. repeat split; lia.
Qed.

(** The loop, when it completes, has written one document per kept record,
    in the order of the cache, each with the formatted content of its
    record, and counts exactly those. *)
Lemma process_ok_trace (state : CacheState) (cutoff : datetime)
    (ms : list meeting) (written : nat) (seen : gset string) (w : World)
    (loop_end : nat * gset string) (w' : World) :
  process local_offset state cutoff ms written seen w = Ok loop_end w' ->
  exists docs,
    trace w' = (trace w ++ docs)%list
    /\ doc_contents docs
       = List.map (fun m => format_inbox_file m state)
                  (List.filter (keeps local_offset state cutoff) ms)
    /\ length docs = length (List.filter (keeps local_offset state cutoff) ms)
    /\ fst loop_end = (written + length docs)%nat.
Proof.
  revert written seen w. induction ms as [|m rest IH]; intros written seen w.
  - intros [= <- <-]. exists []. rewrite app_nil_r. cbn. split; [done|].
    split; [done|]. split; [done | lia].
  - rewrite process_cons. cbn [List.filter].
    assert (Hk : keeps local_offset state cutoff m
                 = match selected local_offset state cutoff m with
                   | Val true => true
                   | _ => false
                   end) by reflexivity.
    destruct (selected local_offset state cutoff m) as [[]|e];
      rewrite Hk; [| |done].
    + destruct (run_filename seen m state) as [fname|e]; [|done].
      destruct (write_text fname (format_inbox_file m state) w)
        as [u w1|e w1] eqn:Hw; [|done].
      apply write_text_ok in Hw as [Htr _]. intros Hrest.
      apply IH in Hrest as (docs & Htr' & Hc & Hl & Hn).
      exists (EvDoc fname (format_inbox_file m state) :: docs).
      split; [by rewrite Htr', Htr, <- app_assoc|].
      split; [cbn; f_equal; exact Hc|].
      split; [cbn; by rewrite Hl|]. rewrite Hn. cbn. lia.
    + apply IH.
Qed.

(** X14. When no record is kept, the loop does nothing at all. *)
Theorem process_nothing_selected (state : CacheState) (cutoff : datetime)
    (ms : list meeting) (written : nat) (seen : gset string) (w : World) :
  Forall (fun m => selected local_offset state cutoff m = Val false) ms ->
  process local_offset state cutoff ms written seen w = Ok (written, seen) w.
Proof.
  induction 1 as [|m rest Hm _ IH]; [reflexivity|].
  by rewrite process_cons, Hm.
Qed.

Lemma touches_process (state : CacheState) (cutoff : datetime)
    (ms : list meeting) (written : nat) (seen : gset string) (w : World) :
  touches w (world_of (process local_offset state cutoff ms written seen w)).
Proof.
  revert written seen w. induction ms as [|m rest IH]; intros written seen w.
  - apply touches_refl.
  - rewrite process_cons.
    destruct (selected local_offset state cutoff m) as [[]|e];
      [| apply IH | apply touches_refl].
    destruct (run_filename seen m state) as [fname|e]; [|apply touches_refl].
    pose proof (touches_write_text fname (format_inbox_file m state) w) as Hw.
    destruct (write_text fname (format_inbox_file m state) w) as [u w1|e w1];
      cbn [world_of] in Hw; [|exact Hw].
    eapply touches_trans; [exact Hw | apply IH].
Qed.

(** X15. A whole run leaves every inbox file alone that it does not write, and
    every file it writes is in the inbox afterwards, whether the run returns
    or an error escapes. *)
Theorem main_touches_named_files (cache : cache_load CacheState) (w : World) :
  touches w (world_of (main local_offset clock cache w)).
Proof.
  unfold main. destruct (lock_busy w).
  { by eapply (touches_no_doc _ _ [_]). }
  assert (Hlock : forall b v, touches v (set_lock_held b v))
    by (intros b v; apply (touches_no_doc _ _ []); [done | by rewrite app_nil_r | done]).
  assert (Hend : forall o : outcome Z,
            touches (set_lock_held true w) (world_of o) ->
            touches w (world_of match o with
                                | Ok code w' => Ok code (set_lock_held false w')
                                | Raise e w' => Raise e (set_lock_held false w')
                                end)).
  { intros o Ho. eapply touches_trans; [apply (Hlock true)|].
    eapply touches_trans; [exact Ho|]. destruct o; apply Hlock. }
  apply Hend. destruct cache as [state|msg|msg].
  - destruct (_run_loaded local_offset clock state (set_lock_held true w))
      as (cutoff & w1 & Hc & _ & ->).
    apply get_cutoff_effects in Hc as [Hi (pre & Htr & Hn & _)].
    eapply (touches_trans _ w1); [by eapply touches_no_doc|].
    rewrite log_spec. cbn [world_of].
    set (w2 := emit (EvLog (Datetime.strftime_seconds (clock (ticks w1)))
                           (LogProcessing cutoff)) (tick w1)).
    eapply (touches_trans _ w2); [by eapply (touches_no_doc _ _ [_])|].
    pose proof (touches_process state cutoff (extract_meetings state) 0 ∅ w2)
      as Hp.
    destruct (process _ _ _ _ _ _ _) as [loop_end w3|e w3];
      cbn [world_of] in Hp |- *; [|exact Hp].
    eapply (touches_trans _ w3); [exact Hp|]. rewrite log_spec. cbn [world_of].
    eapply (touches_no_doc _ _ [_; _]);
      [done | cbn [trace emit tick]; by rewrite <- app_assoc | done].
  - by eapply (touches_no_doc _ _ [_]).
  - by eapply (touches_no_doc _ _ [_]).
Qed.

(** X16. The exit status of a run that returns is 1 exactly when the lock was
    free and loading the cache failed for another reason than a missing
    file; it is 0 otherwise. *)
Theorem main_exit_code (cache : cache_load CacheState) (w : World)
    (code : Z) (w' : World) :
  main local_offset clock cache w = Ok code w' ->
  code = match cache with
         | CacheFailed _ => if lock_busy w then 0 else 1
         | _ => 0
         end.
Proof.
  unfold main. destruct (lock_busy w).
  { intros [= <- _]. by destruct cache. }
  destruct cache as [state|msg|msg]; [| by intros [= <- _] | by intros [= <- _]].
  destruct (_run_loaded local_offset clock state (set_lock_held true w))
    as (cutoff & w1 & _ & _ & ->).
  destruct (process _ _ _ _ _ _ _); [|done]. by intros [= <- _].
Qed.

(** X17. A run that finds the lock busy, or that cannot load the cache, appends
    one line to the log and changes nothing else. *)
Theorem main_skips_quietly (cache : cache_load CacheState) (w : World) :
  lock_busy w = true \/ (forall state, cache <> CacheLoaded state) ->
  exists code ts msg w',
    main local_offset clock cache w = Ok code w'
    /\ trace w' = (trace w ++ [EvLog ts msg])%list
    /\ state_file w' = state_file w
    /\ inbox w' = inbox w
    /\ lock_held w' = (if lock_busy w then lock_held w else false).
Proof.
  intros H. unfold main. destruct (lock_busy w) eqn:Hbusy.
  { by eexists _, _, _, _. }
  destruct H as [H|H]; [done|].
  destruct cache as [state|msg|msg]; [by destruct (H state)| |];
    by eexists _, _, _, _.
Qed.

(** X18. A run that takes the lock, loads the cache and returns has written one
    document per kept record, in the order of the cache and with the
    formatted content of the record; the number in its last log line is the
    number of those documents, and the last effect is the commit. *)
Theorem completed_run_writes_kept_records (state : CacheState) (w : World)
    (code : Z) (w' : World) :
  lock_busy w = false ->
  main local_offset clock (CacheLoaded state) w = Ok code w' ->
  exists cutoff w1 pre ts1 docs ts2 text,
    get_cutoff clock (set_lock_held true w) = Ok cutoff w1
    /\ trace w'
       = (trace w ++ pre ++ [EvLog ts1 (LogProcessing cutoff)] ++ docs
          ++ [EvLog ts2 (LogWrote (length docs)); EvCommit text])%list
    /\ doc_names pre = [] /\ (length pre <= 1)%nat
    /\ doc_contents docs
       = List.map (fun m => format_inbox_file m state)
           (List.filter (keeps local_offset state cutoff)
                        (extract_meetings state))
    /\ length docs
       = length (List.filter (keeps local_offset state cutoff)
                             (extract_meetings state)).
Proof.
  intros Hfree Hmain. unfold main in Hmain. rewrite Hfree in Hmain.
  destruct (_run_loaded local_offset clock state (set_lock_held true w))
    as (cutoff & w1 & Hc & _ & Hrun).
  rewrite Hrun in Hmain. clear Hrun. rewrite log_spec in Hmain.
  cbn [world_of] in Hmain.
  destruct (process _ _ _ _ _ _ _) as [loop_end w3|e w3] eqn:Hp;
    [|discriminate Hmain].
  apply process_ok_trace in Hp as (docs & Htr3 & Hcont & Hlen & Hn).
  pose proof (get_cutoff_effects _ _ _ Hc) as [_ (pre & Htr1 & Hpre & Hshort)].
  rewrite log_spec in Hmain. cbn [world_of] in Hmain.
  injection Hmain as _ <-.
  eexists cutoff, w1, pre, _, docs, _, _. split; [exact Hc|].
  split; [|done].
  cbn [trace emit set_lock_held tick] in *. rewrite Htr3. cbn [trace emit tick].
  rewrite Htr1. cbn [trace set_lock_held]. rewrite Hn. cbn [Nat.add].
  by rewrite <- !app_assoc.
Qed.

End Run2.

(** ** From one run to the next *)

Section NextRun.

Context {CacheState : Type} {reader : GranolaReader CacheState}.
Variable local_offset : Z.
Variable clock : nat -> datetime.

Lemma main_commit_state (state : CacheState) (w : World) (code : Z)
    (w' : World) :
  lock_busy w = false ->
  main local_offset clock (CacheLoaded state) w = Ok code w' ->
  state_file w'
  = Some (Datetime.strftime_T_seconds (clock (pred (ticks w')))).
Proof.
  intros Hfree Hmain. unfold main in Hmain. rewrite Hfree in Hmain.
  destruct (_run_loaded local_offset clock state (set_lock_held true w))
    as (cutoff & w1 & _ & _ & Hrun).
  rewrite Hrun in Hmain. clear Hrun.
  destruct (process _ _ _ _ _ _ _) as [loop_end w3|e w3]; [|discriminate Hmain].
  by injection Hmain as _ <-.
Qed.

(** X19. After a run that took the lock, loaded the cache and returned, the next
    load of the watermark gives the clock reading of that run's commit, cut
    to whole seconds, provided that reading is an instant of the clock
    (valid fields, four-digit year, no offset); it logs no warning and reads
    no clock. *)
Theorem next_run_cutoff (state : CacheState) (w : World) (code : Z)
    (w' : World) (later_clock : nat -> datetime) :
  lock_busy w = false ->
  main local_offset clock (CacheLoaded state) w = Ok code w' ->
  Datetime.valid_fields (clock (pred (ticks w'))) = true ->
  1000 <= year (clock (pred (ticks w'))) ->
  tzinfo (clock (pred (ticks w'))) = None ->
  get_cutoff later_clock w'
  = Ok (Datetime.whole_seconds (clock (pred (ticks w')))) w'.
Proof.
  intros Hfree Hmain Hv Hy Htz.
  pose proof (main_commit_state _ _ _ _ Hfree Hmain) as Hstate.
  unfold get_cutoff. rewrite Hstate.
  by rewrite (fromisoformat_strftime _ Hv Hy Htz).
Qed.

End NextRun.

(** ** The further properties at sample inputs *)

Lemma slugify_untitled_witness :
  all_chars (fun c => PyStr.illegal_in_name c || PyStr.isspace c
                      || Ascii.eqb "-" c) "  ?? -- // " = true
  /\ slugify "  ?? -- // " = "untitled".
Proof.
  assert (H : all_chars (fun c => PyStr.illegal_in_name c || PyStr.isspace c
                                  || Ascii.eqb "-" c) "  ?? -- // " = true)
    by (vm_compute; reflexivity).
  split; [exact H|]. exact (slugify_untitled _ H).
Defined.

Lemma run_filename_leaves_seen_name_witness :
  let seen : gset string := {["granola-2024-02-21-retro.md"]} in
  let fname := "granola-2024-02-21-retro-22222222.md" in
  inbox_filename Sample.retro Sample.three_talks ∈ seen
  /\ run_filename seen Sample.retro Sample.three_talks = Val fname
  /\ fname <> inbox_filename Sample.retro Sample.three_talks.
Proof.
  cbv zeta.
  assert (H1 : inbox_filename Sample.retro Sample.three_talks
               ∈ ({["granola-2024-02-21-retro.md"]} : gset string))
    by (vm_compute; reflexivity).
  assert (H2 : run_filename {["granola-2024-02-21-retro.md"]} Sample.retro
                 Sample.three_talks
               = Val "granola-2024-02-21-retro-22222222.md")
    by (vm_compute; reflexivity).
  split; [exact H1|]. split; [exact H2|].
  exact (run_filename_leaves_seen_name _ _ _ _ H1 H2).
Defined.

Lemma first_two_names_differ_witness :
  let n1 := "granola-2024-02-21-retro.md" in
  let n2 := "granola-2024-02-21-retro-22222222.md" in
  run_filename ∅ Sample.retro Sample.three_talks = Val n1
  /\ run_filename {[n1]} Sample.retro Sample.three_talks = Val n2
  /\ n1 <> n2.
Proof.
  cbv zeta.
  assert (H1 : run_filename ∅ Sample.retro Sample.three_talks
               = Val "granola-2024-02-21-retro.md")
    by (vm_compute; reflexivity).
  assert (H2 : run_filename {["granola-2024-02-21-retro.md"]} Sample.retro
                 Sample.three_talks
               = Val "granola-2024-02-21-retro-22222222.md")
    by (vm_compute; reflexivity).
  split; [exact H1|]. split; [exact H2|].
  exact (first_two_names_differ _ _ _ _ _ H1 H2).
Defined.

Lemma selected_at_cutoff_witness :
  let m := Sample.standup Sample.in_seconds in
  let updated := mkdt 2024 2 20 10 0 0 0 None in
  has_content m Sample.no_records = true
  /\ get_updated_at Sample.utc m = Val (Some updated)
  /\ selected Sample.utc Sample.no_records updated m = Val true.
Proof.
  cbv zeta.
  assert (H1 : has_content (Sample.standup Sample.in_seconds) Sample.no_records
               = true) by reflexivity.
  assert (H2 : get_updated_at Sample.utc (Sample.standup Sample.in_seconds)
               = Val (Some (mkdt 2024 2 20 10 0 0 0 None)))
    by (vm_compute; reflexivity).
  split; [exact H1|]. split; [exact H2|].
  exact (selected_at_cutoff Sample.utc _ _ _ H1 H2).
Defined.

Lemma unresolved_field_is_absent_witness :
  let v := VStr "next tuesday" in
  (convert Sample.utc v = Val None
   \/ convert Sample.utc v = Exc ValueError
   \/ convert Sample.utc v = Exc OSError)
  /\ get_updated_at Sample.utc (<["updated_at" := v]> Sample.kickoff)
     = get_updated_at Sample.utc (delete "updated_at" Sample.kickoff).
Proof.
  cbv zeta.
  assert (H : convert Sample.utc (VStr "next tuesday") = Val None
              \/ convert Sample.utc (VStr "next tuesday") = Exc ValueError
              \/ convert Sample.utc (VStr "next tuesday") = Exc OSError)
    by (right; left; vm_compute; reflexivity).
  split; [exact H|].
  exact (unresolved_field_is_absent Sample.utc Sample.kickoff "updated_at" _ H).
Defined.

Lemma get_updated_at_other_key_witness :
("title" ∉ timestamp_fields)
  /\ get_updated_at Sample.utc (<["title" := VStr "Renamed"]> Sample.kickoff)
     = get_updated_at Sample.utc Sample.kickoff.
Proof.
  assert (H : "title" ∉ timestamp_fields)
    by (apply (bool_decide_unpack _); vm_compute; exact I).
  split; [exact H|].
  exact (get_updated_at_other_key Sample.utc Sample.kickoff "title" _ H).
Defined.

Lemma milliseconds_agree_with_seconds_witness :
  10 ^ 9 < 1708423200 <= 10 ^ 12
  /\ convert Sample.utc (VInt (1000 * 1708423200))
     = convert Sample.utc (VInt 1708423200).
Proof.
  assert (H : 10 ^ 9 < 1708423200 <= 10 ^ 12) by (simpl; lia).
  split; [exact H|].
  exact (milliseconds_agree_with_seconds Sample.utc _ H).
Defined.

Lemma process_nothing_selected_witness :
  let cutoff := Datetime.sub_days (Sample.sample_clock 0) 30 in
  let ms := [Sample.stale; Sample.stale] in
  Forall (fun m => selected Sample.utc ms cutoff m = Val false) ms
  /\ process Sample.utc ms cutoff ms 0 ∅ Sample.fresh = Ok (0%nat, ∅) Sample.fresh.
Proof.
  cbv zeta.
  assert (H : Forall (fun m => selected Sample.utc [Sample.stale; Sample.stale]
                                 (Datetime.sub_days (Sample.sample_clock 0) 30) m
                               = Val false)
                     [Sample.stale; Sample.stale])
    by (repeat constructor; vm_compute; reflexivity).
  split; [exact H|].
  exact (process_nothing_selected Sample.utc _ _ _ 0%nat ∅ Sample.fresh H).
Defined.

Lemma main_exit_code_witness :
  let cache : cache_load (list meeting) := CacheFailed "unexpected end of file" in
  let run := main Sample.utc Sample.sample_clock cache Sample.fresh in
  run = Ok 1 (world_of run)
  /\ 1 = (if lock_busy Sample.fresh then 0 else 1).
Proof.
  cbv zeta.
  assert (H : main Sample.utc Sample.sample_clock
                (CacheFailed (CacheState := list meeting) "unexpected end of file")
                Sample.fresh
              = Ok 1 (world_of (main Sample.utc Sample.sample_clock
                          (CacheFailed (CacheState := list meeting)
                             "unexpected end of file") Sample.fresh)))
    by (vm_compute; reflexivity).
  split; [exact H|].
  exact (main_exit_code Sample.utc Sample.sample_clock _ _ _ _ H).
Defined.

Lemma main_skips_quietly_witness :
  let cache : cache_load (list meeting) := CacheNotFound "no cache file" in
  (lock_busy Sample.fresh = true \/ (forall state, cache <> CacheLoaded state))
  /\ exists code ts msg w',
       main Sample.utc Sample.sample_clock cache Sample.fresh = Ok code w'
       /\ trace w' = (trace Sample.fresh ++ [EvLog ts msg])%list
       /\ state_file w' = state_file Sample.fresh
       /\ inbox w' = inbox Sample.fresh
       /\ lock_held w'
          = (if lock_busy Sample.fresh then lock_held Sample.fresh else false).
Proof.
  cbv zeta.
  assert (H : lock_busy Sample.fresh = true
              \/ (forall state : list meeting,
                    CacheNotFound "no cache file" <> CacheLoaded state))
    by (right; intros state; discriminate).
  split; [exact H|].
  exact (main_skips_quietly Sample.utc Sample.sample_clock _ Sample.fresh H).
Defined.

Lemma completed_run_writes_kept_records_witness :
  let run :=
    main Sample.utc Sample.sample_clock (CacheLoaded Sample.three_talks)
         Sample.fresh in
  lock_busy Sample.fresh = false
  /\ run = Ok 0 (world_of run)
  /\ exists cutoff w1 pre ts1 docs ts2 text,
       get_cutoff Sample.sample_clock (set_lock_held true Sample.fresh)
       = Ok cutoff w1
       /\ trace (world_of run)
          = (trace Sample.fresh ++ pre ++ [EvLog ts1 (LogProcessing cutoff)]
             ++ docs ++ [EvLog ts2 (LogWrote (length docs)); EvCommit text])%list
       /\ doc_names pre = [] /\ (length pre <= 1)%nat
       /\ doc_contents docs
          = List.map (fun m => format_inbox_file m Sample.three_talks)
              (List.filter (keeps Sample.utc Sample.three_talks cutoff)
                           (extract_meetings Sample.three_talks))
       /\ length docs
          = length (List.filter (keeps Sample.utc Sample.three_talks cutoff)
                                (extract_meetings Sample.three_talks)).
Proof.
  cbv zeta.
  assert (H1 : lock_busy Sample.fresh = false) by reflexivity.
  assert (H2 : main Sample.utc Sample.sample_clock
                 (CacheLoaded Sample.three_talks) Sample.fresh
               = Ok 0 (world_of (main Sample.utc Sample.sample_clock
                                   (CacheLoaded Sample.three_talks) Sample.fresh)))
    by (vm_compute; reflexivity).
  split; [exact H1|]. split; [exact H2|].
  exact (completed_run_writes_kept_records Sample.utc Sample.sample_clock
           Sample.three_talks Sample.fresh 0 _ H1 H2).
Defined.

Lemma next_run_cutoff_witness :
  let run :=
    main Sample.utc Sample.sample_clock (CacheLoaded Sample.three_talks)
         Sample.fresh in
  let t := Sample.sample_clock (pred (ticks (world_of run))) in
  lock_busy Sample.fresh = false
  /\ run = Ok 0 (world_of run)
  /\ Datetime.valid_fields t = true
  /\ 1000 <= year t
  /\ tzinfo t = None
  /\ get_cutoff Sample.sample_clock (world_of run)
     = Ok (Datetime.whole_seconds t) (world_of run).
Proof.
  cbv zeta.
  assert (H1 : lock_busy Sample.fresh = false) by reflexivity.
  assert (H2 : main Sample.utc Sample.sample_clock
                 (CacheLoaded Sample.three_talks) Sample.fresh
               = Ok 0 (world_of (main Sample.utc Sample.sample_clock
                                   (CacheLoaded Sample.three_talks) Sample.fresh)))
    by (vm_compute; reflexivity).
  assert (H3 : Datetime.valid_fields
                 (Sample.sample_clock
                    (pred (ticks (world_of (main Sample.utc Sample.sample_clock
                       (CacheLoaded Sample.three_talks) Sample.fresh))))) = true)
    by (vm_compute; reflexivity).
  assert (H4 : 1000 <= year
                 (Sample.sample_clock
                    (pred (ticks (world_of (main Sample.utc Sample.sample_clock
                       (CacheLoaded Sample.three_talks) Sample.fresh))))))
    by (vm_compute; discriminate).
  assert (H5 : tzinfo
                 (Sample.sample_clock
                    (pred (ticks (world_of (main Sample.utc Sample.sample_clock
                       (CacheLoaded Sample.three_talks) Sample.fresh))))) = None)
    by (vm_compute; reflexivity).
  split; [exact H1|]. split; [exact H2|]. split; [exact H3|].
  split; [exact H4|]. split; [exact H5|].
  exact (next_run_cutoff Sample.utc Sample.sample_clock Sample.three_talks
           Sample.fresh 0 _ Sample.sample_clock H1 H2 H3 H4 H5).
Defined.
